(** * The keyword listener of [main.py]: [handle_message]

    The handler receives one chat message, drops the messages it is not
    interested in, reads the keyword rules from Redis (one JSON document under
    ["listener:keywords"]), scans the rules in order and, for the rule it
    settles on, appends one JSON record to the Redis list of the rule's user
    and gives that list 24 hours to live.

    The embedding follows the source line by line.  Python values are a small
    untyped universe ([pyval]), Python [str] is a list of code points, the
    Redis server is a finite map with deadlines, and the handler runs in a
    state-and-exception monad over a [world] that also records the commands
    sent to Redis and the log.  The library functions the handler calls but
    does not define ([json.loads], [json.dumps], [str.lower], [repr]) are
    section variables.

    The HTTP endpoints of the same file are in the module [Api]: each takes
    the method of the Telegram client it calls as an argument and maps what
    the client returns or raises to its own response or exception. *)

From Stdlib Require Import ZArith NArith List String Ascii Lia DecimalString.
From Stdlib Require Import DecimalPos DecimalZ.
From Stdlib Require Import Uint63 Floats.PrimFloat Floats.FloatOps Floats.SpecFloat.
From stdpp Require Import gmap list.

#[local] Set Default Proof Using "Type".

(** ** Python strings *)

(** A Python [str] is a sequence of Unicode code points. *)
Abbreviation pystr := (list N).

(** ASCII literals of the source, as code points. *)
Definition lit (s : string) : pystr :=
  map N_of_ascii (list_ascii_of_string s).
Arguments lit s%_string.

Definition pystr_eqb (a b : pystr) : bool := bool_decide (a = b).

(** [t.startswith(k)] *)
Fixpoint startswith (t k : pystr) : bool :=
  match k, t with
  | [], _ => true
  | _ :: _, [] => false
  | c :: k', d :: t' => (c =? d)%N && startswith t' k'
  end.

(** [k in t] for two strings: [k] occurs in [t] as a contiguous run. *)
Fixpoint contains (t k : pystr) : bool :=
  startswith t k ||
  match t with
  | [] => false
  | _ :: t' => contains t' k
  end.

(** The code points [str.isspace] accepts; [str.split()] cuts on them. *)
Definition isspace (c : N) : bool :=
  ((9 <=? c) && (c <=? 13) || (28 <=? c) && (c <=? 32) || (c =? 133) || (c =? 160)
   || (c =? 5760) || (8192 <=? c) && (c <=? 8202) || (c =? 8232) || (c =? 8233)
   || (c =? 8239) || (c =? 8287) || (c =? 12288))%N.

(** [t.split()]: the maximal runs of non-space code points, in order.
    [word] is the run being read. *)
Fixpoint split_from (word t : pystr) : list pystr :=
  match t with
  | [] => match word with [] => [] | _ => [word] end
  | c :: t' =>
      if isspace c
      then match word with
           | [] => split_from [] t'
           | _ => word :: split_from [] t'
           end
      else split_from (word ++ [c]) t'
  end.

Definition split (t : pystr) : list pystr := split_from [] t.

(** ** Python values *)

(** What [json.loads] can return, which is also all the handler puts into the
    record it serialises.  A [dict] keeps its insertion order. *)
#[local] Unset Elimination Schemes.
Inductive pyval :=
| PNone
| PBool (b : bool)
| PInt (z : Z)
| PFloat (f : float)
| PStr (s : pystr)
| PList (l : list pyval)
| PDict (d : list (pystr * pyval)).
#[local] Set Elimination Schemes.

(** Truth value of an object ([if x], [not x], [x and y]). *)
Definition truthy (v : pyval) : bool :=
  match v with
  | PNone => false
  | PBool b => b
  | PInt z => negb (z =? 0)%Z
  | PFloat f => negb (PrimFloat.eqb f 0%float)
  | PStr s => match s with [] => false | _ => true end
  | PList l => match l with [] => false | _ => true end
  | PDict d => match d with [] => false | _ => true end
  end.

(** Truth value of an attribute that is a string or [None]. *)
Definition truthy_str (o : option pystr) : bool :=
  match o with
  | Some (_ :: _) => true
  | _ => false
  end.

(** [a or b] on such attributes. *)
Definition or_str (a b : option pystr) : option pystr :=
  if truthy_str a then a else b.

(** [o or ""] *)
Definition or_empty (o : option pystr) : pystr :=
  match o with
  | Some (c :: s) => c :: s
  | _ => []
  end.

Definition opt_str (o : option pystr) : pyval :=
  match o with
  | Some s => PStr s
  | None => PNone
  end.

(** [v == "literal"]: only a string is equal to a string. *)
Definition py_eq_str (v : pyval) (s : pystr) : bool :=
  match v with
  | PStr s' => pystr_eqb s' s
  | _ => false
  end.

(** ** Exceptions *)

Inductive redis_error := ConnectionError | TimeoutError | ResponseError.

(** The exception classes the handler can meet.  [CancelledError] derives
    from [BaseException] only, so [except Exception] lets it through. *)
Inductive exn :=
| AttributeError
| TypeError
| JSONDecodeError
| RedisError (e : redis_error)
| CancelledError.

(** [isinstance(e, Exception)] *)
Definition is_Exception (e : exn) : bool :=
  match e with
  | CancelledError => false
  | _ => true
  end.

Inductive result (A : Type) :=
| Ok (a : A)
| Raise (e : exn).
Arguments Ok {A} a.
Arguments Raise {A} e.

(** ** Operators that can raise *)

(** [d.get(key, default)]; anything but a [dict] has no [get]. *)
Fixpoint dict_lookup (d : list (pystr * pyval)) (key : pystr) : option pyval :=
  match d with
  | [] => None
  | (k, v) :: d' => if pystr_eqb k key then Some v else dict_lookup d' key
  end.

Definition get (v : pyval) (key : pystr) (default : pyval) : result pyval :=
  match v with
  | PDict d => Ok (from_option (fun x => x) default (dict_lookup d key))
  | _ => Raise AttributeError
  end.

(** [k in t] where [t] is a string: the left operand must be a string. *)
Definition py_in (k : pyval) (t : pystr) : result bool :=
  match k with
  | PStr s => Ok (contains t s)
  | _ => Raise TypeError
  end.

(** [len(words) < v] and [v > 0] for an integer on the left: defined against
    numbers ([bool] counts as 0 or 1), [TypeError] otherwise.  An [int] and a
    [float] compare by value; the conversion below is exact below 2^53, more
    words than a string in memory can hold. *)
Definition float_of_Z (z : Z) : float := PrimFloat.of_uint63 (Uint63.of_Z z).

Definition py_gt_0 (v : pyval) : result bool :=
  match v with
  | PBool b => Ok b
  | PInt z => Ok (0 <? z)%Z
  | PFloat f => Ok (PrimFloat.ltb 0%float f)
  | _ => Raise TypeError
  end.

Definition py_len_lt (n : nat) (v : pyval) : result bool :=
  match v with
  | PBool b => Ok (Z.of_nat n <? (if b then 1 else 0))%Z
  | PInt z => Ok (Z.of_nat n <? z)%Z
  | PFloat f => Ok (PrimFloat.ltb (float_of_Z (Z.of_nat n)) f)
  | _ => Raise TypeError
  end.

(** [for x in v]: the elements of a list, the keys of a dict, the characters
    of a string; the other values are not iterable. *)
Definition py_iter (v : pyval) : result (list pyval) :=
  match v with
  | PList l => Ok l
  | PDict d => Ok (map (fun kv => PStr (fst kv)) d)
  | PStr s => Ok (map (fun c => PStr [c]) s)
  | _ => Raise TypeError
  end.

(** Decimal digits of an integer, as [str(z)] prints them. *)
Definition str_of_Z (z : Z) : pystr :=
  lit (NilZero.string_of_int (Z.to_int z)).

(** ** The message, as Pyrogram hands it over *)

(** [pyrogram.enums.ChatType] and the [value] of each member. *)
Module ChatType.
Inductive t := PRIVATE | BOT | GROUP | SUPERGROUP | CHANNEL.

Definition value (c : t) : pystr :=
  match c with
  | PRIVATE => lit "private"
  | BOT => lit "bot"
  | GROUP => lit "group"
  | SUPERGROUP => lit "supergroup"
  | CHANNEL => lit "channel"
  end.
End ChatType.

(** [message.from_user] *)
Module User.
Record t := {
  id : Z;
  is_self : bool;
  is_bot : bool;
  username : option pystr;
  full_name : option pystr
}.
End User.

(** [message.chat] *)
Module Chat.
Record t := {
  id : Z;
  type : ChatType.t;
  title : option pystr;
  username : option pystr
}.
End Chat.

(** [message.date], read only through [timestamp()]. *)
Module datetime.
Record t := { timestamp : float }.
End datetime.

(** The attributes of [pyrogram.types.Message] the handler reads.  [link] is
    a property computed by the library. *)
Module Message.
Record t := {
  id : Z;
  from_user : option User.t;
  chat : option Chat.t;
  text : option pystr;
  caption : option pystr;
  date : option datetime.t;
  link : pystr
}.
End Message.

(** ** Redis *)

(** A key holds a string or a list, and may carry the time at which it
    expires. *)
Inductive redis_value :=
| RString (s : pystr)
| RList (l : list pystr).

Record entry := { value : redis_value; deadline : option Z }.

(** The commands the handler sends. *)
Inductive command :=
| GET (key : pystr)
| RPUSH (key : pystr) (item : pystr)
| EXPIRE (key : pystr) (seconds : Z).

(** What the handler writes to the log. *)
Inductive log_record :=
| INFO_received (username : option pystr) (user_id : Z) (full_name : option pystr)
    (text50 : pystr)
| INFO_pushed (user_id : pyval)
| ERROR_handling (e : exn).

(** Everything outside the handler: the Redis keyspace [db], the server's
    clock, the fate of the next commands ([outages]: [Some e] makes the next
    command raise [e] without effect, [None] or nothing lets it through), the
    commands sent so far and the log, both oldest first. *)
Record world := {
  db : gmap pystr entry;
  clock : Z;
  outages : list (option redis_error);
  calls : list command;
  log : list log_record
}.

(** A key past its deadline is gone. *)
Definition live (now : Z) (e : entry) : bool :=
  match deadline e with
  | Some d => (now <? d)%Z
  | None => true
  end.

Definition lookup_live (d : gmap pystr entry) (now : Z) (key : pystr) : option entry :=
  match d !! key with
  | Some e => if live now e then Some e else None
  | None => None
  end.

(** ** The monad of the handler: state and exceptions *)

Definition M (A : Type) : Type := world -> result A * world.

Definition ret {A} (a : A) : M A := fun w => (Ok a, w).

Definition bind {A B} (m : M A) (k : A -> M B) : M B := fun w =>
  match m w with
  | (Ok a, w') => k a w'
  | (Raise e, w') => (Raise e, w')
  end.

Definition lift {A} (r : result A) : M A := fun w => (r, w).

Declare Scope py_scope.
Delimit Scope py_scope with py.
Notation "x <- m ;; k" := (bind m (fun x => k))
  (at level 100, m at next level, right associativity) : py_scope.
Notation "m ;;; k" := (bind m (fun _ => k))
  (at level 100, right associativity) : py_scope.
#[local] Open Scope py_scope.

(** [obj.attr] when [obj] may be [None]. *)
Definition attr {A} (o : option A) : M A :=
  match o with
  | Some a => ret a
  | None => lift (Raise AttributeError)
  end.

Definition logging (r : log_record) : M unit := fun w =>
  (Ok tt, {| db := db w; clock := clock w; outages := outages w;
             calls := calls w; log := log w ++ [r] |}).

(** One round trip to the server: the command is recorded, then either the
    connection fails or [run] computes the reply and the new keyspace. *)
Definition redis_call {A} (c : command)
    (run : gmap pystr entry -> Z -> result A * gmap pystr entry) : M A := fun w =>
  let sent := calls w ++ [c] in
  match outages w with
  | Some e :: rest =>
      (Raise (RedisError e),
       {| db := db w; clock := clock w; outages := rest; calls := sent; log := log w |})
  | _ =>
      let '(r, d) := run (db w) (clock w) in
      (r, {| db := d; clock := clock w; outages := tail (outages w);
             calls := sent; log := log w |})
  end.

(** [GET key]: the string, [None] for a missing key, an error for a list. *)
Definition redis_get (key : pystr) : M (option pystr) :=
  redis_call (GET key) (fun d now =>
    match lookup_live d now key with
    | None => (Ok None, d)
    | Some {| value := RString s |} => (Ok (Some s), d)
    | Some {| value := RList _ |} => (Raise (RedisError ResponseError), d)
    end).

(** [RPUSH key item]: append at the tail, creating the list if the key is
    missing; replies with the new length. *)
Definition redis_rpush (key item : pystr) : M Z :=
  redis_call (RPUSH key item) (fun d now =>
    match lookup_live d now key with
    | None =>
        (Ok 1%Z, <[key := {| value := RList [item]; deadline := None |}]> d)
    | Some {| value := RList l; deadline := dl |} =>
        (Ok (Z.of_nat (length l) + 1)%Z,
         <[key := {| value := RList (l ++ [item]); deadline := dl |}]> d)
    | Some {| value := RString _ |} => (Raise (RedisError ResponseError), d)
    end).

(** [EXPIRE key seconds]: the key expires [seconds] from now (at once when
    [seconds] is not positive); replies whether the key exists. *)
Definition redis_expire (key : pystr) (seconds : Z) : M bool :=
  redis_call (EXPIRE key seconds) (fun d now =>
    match lookup_live d now key with
    | None => (Ok false, d)
    | Some e =>
        (Ok true,
         if (0 <? seconds)%Z
         then <[key := {| value := value e; deadline := Some (now + seconds)%Z |}]> d
         else delete key d)
    end).

(** ** The handler *)

Section Handler.

(** [json.loads]: the decoded value, or [None] for [JSONDecodeError]. *)
Variable json_loads : pystr -> option pyval.
(** [json.dumps] *)
Variable json_dumps : pyval -> pystr.
(** [str.lower] *)
Variable lower : pystr -> pystr.
(** [repr] of the values [str()] prints through it: floats, lists, dicts. *)
Variable repr : pyval -> pystr.

(** [str(v)], which is what [{v}] in an f-string inserts. *)
Definition str (v : pyval) : pystr :=
  match v with
  | PNone => lit "None"
  | PBool true => lit "True"
  | PBool false => lit "False"
  | PInt z => str_of_Z z
  | PStr s => s
  | _ => repr v
  end.

(** [k.lower() in t.lower()]; only a string has [lower]. *)
Definition py_lower_in (k : pyval) (t : pystr) : result bool :=
  match k with
  | PStr s => Ok (contains (lower t) (lower s))
  | _ => Raise AttributeError
  end.

(** Lines 104-111: the value of [is_push] after the [if]/[elif] of one rule.
    [and] evaluates its right operand only when the left one holds. *)
Definition match_keyword (is_push : bool) (match_pattern target_keyword : pyval)
    (message_text : pystr) : result bool :=
  match (if py_eq_str match_pattern (lit "exact")
         then py_in target_keyword message_text else Ok false) with
  | Raise e => Raise e
  | Ok true => Ok true
  | Ok false =>
      match (if py_eq_str match_pattern (lit "fuzzy")
             then py_lower_in target_keyword message_text else Ok false) with
      | Raise e => Raise e
      | Ok true => Ok true
      | Ok false => Ok is_push
      end
  end.

(** Line 118: [word_limit > 0 and len(message_text.split()) < word_limit] *)
Definition too_short (word_limit : pyval) (message_text : pystr) : result bool :=
  match py_gt_0 word_limit with
  | Raise e => Raise e
  | Ok false => Ok false
  | Ok true => py_len_lt (length (split message_text)) word_limit
  end.

(** Lines 123-136: the record that is pushed. *)
Definition push_data (message : Message.t) (from_user : User.t) (chat : Chat.t)
    (date : datetime.t) (message_text : pystr) (target_keyword : pyval) : pyval :=
  PDict [
    (lit "message_id", PInt (Message.id message));
    (lit "message_link", PStr (Message.link message));
    (lit "chat_title", opt_str (Chat.title chat));
    (lit "chat_username", opt_str (Chat.username chat));
    (lit "chat_type", PStr (ChatType.value (Chat.type chat)));
    (lit "chat_id", PInt (Chat.id chat));
    (lit "user_name", opt_str (User.username from_user));
    (lit "user_full_name", opt_str (User.full_name from_user));
    (lit "user_id", PInt (User.id from_user));
    (lit "text", PStr message_text);
    (lit "date", PFloat (datetime.timestamp date));
    (lit "matched_keyword", target_keyword)
  ].

(** Line 139 *)
Definition push_key (user_id : pyval) : pystr :=
  lit "listener:push:messages:" ++ str user_id.

(** Lines 139-145: append the record to the user's list, restart the list's
    24 hours, log. *)
Definition push (user_id : pyval) (data : pyval) : M unit :=
  _ <- redis_rpush (push_key user_id) (json_dumps data) ;;
  _ <- redis_expire (push_key user_id) (24 * 60 * 60) ;;
  logging (INFO_pushed user_id).

(** Lines 91-147: the loop over the rules.  [is_push] is the variable of
    line 89; it is assigned in the loop and never reset. *)
Fixpoint for_keyword (message : Message.t) (from_user : User.t) (chat : Chat.t)
    (is_push : bool) (keywords : list pyval) : M unit :=
  match keywords with
  | [] => ret tt
  | keyword :: rest =>
      is_active <- lift (get keyword (lit "is_active") (PBool false)) ;;
      if negb (truthy is_active) then for_keyword message from_user chat is_push rest else
      match_pattern <- lift (get keyword (lit "match_pattern") (PStr (lit "exact"))) ;;
      word_limit <- lift (get keyword (lit "word_limit") (PInt 0)) ;;
      has_username <- lift (get keyword (lit "has_username") (PInt 0)) ;;
      target_keyword <- lift (get keyword (lit "keyword") (PStr [])) ;;
      user_id <- lift (get keyword (lit "user_id") PNone) ;;
      let message_text := or_empty (or_str (Message.text message) (Message.caption message)) in
      is_push <- lift (match_keyword is_push match_pattern target_keyword message_text) ;;
      if truthy has_username && negb (truthy_str (User.username from_user))
      then for_keyword message from_user chat is_push rest else
      short <- lift (too_short word_limit message_text) ;;
      if (short : bool) then for_keyword message from_user chat is_push rest else
      if (is_push : bool) then
        date <- attr (Message.date message) ;;
        push user_id (push_data message from_user chat date message_text target_keyword)
      else for_keyword message from_user chat is_push rest
  end.

(** Lines 56-147: the body of the [try]. *)
Definition handle_message_body (message : Message.t) : M unit :=
  match Message.from_user message with
  | None => ret tt
  | Some from_user =>
      if User.is_self from_user then ret tt else
      let text := or_str (Message.text message) (Message.caption message) in
      if negb (truthy_str text) then ret tt else
      chat <- attr (Message.chat message) ;;
      if pystr_eqb (ChatType.value (Chat.type chat)) (lit "private") then ret tt else
      if User.is_bot from_user then ret tt else
      _ <- logging (INFO_received (User.username from_user) (User.id from_user)
                      (User.full_name from_user) (firstn 50 (or_empty text))) ;;
      keywords <- redis_get (lit "listener:keywords") ;;
      if negb (truthy_str keywords) then ret tt else
      keywords <- match json_loads (or_empty keywords) with
                  | Some v => ret v
                  | None => lift (Raise JSONDecodeError)
                  end ;;
      keywords <- lift (py_iter keywords) ;;
      for_keyword message from_user chat false keywords
  end.

(** Lines 54-150: [try: ... except Exception as e: logging.error(...)]. *)
Definition handle_message (message : Message.t) : M unit := fun w =>
  match handle_message_body message w with
  | (Raise e, w') =>
      if is_Exception e then logging (ERROR_handling e) w' else (Raise e, w')
  | (Ok _, w') => (Ok tt, w')
  end.

End Handler.

(** ** Library functions on a fragment, to run the handler on concrete data

    The statements about the handler hold for every [json_loads], [json_dumps],
    [lower] and [repr].  To evaluate the handler on a concrete message and a
    concrete keyspace the functions below stand in for the library on the
    fragment the evaluations use: JSON without fractions, exponents and
    [\u] escapes, and ASCII letters. *)

Module Fragment.

(** A JSON text written with ['] where JSON has the double quote. *)
Definition json_lit (s : string) : pystr :=
  map (fun c => if (c =? 39)%N then 34%N else c) (lit s).
Arguments json_lit s%_string.

(** [str.lower] on ASCII text. *)
Definition lower (t : pystr) : pystr :=
  map (fun c => if ((65 <=? c) && (c <=? 90))%N then (c + 32)%N else c) t.

(** No evaluation below prints a float, a list or a dict with [str()]. *)
Definition repr (v : pyval) : pystr := lit "<repr>".

(** *** Decoding *)

Fixpoint skip_ws (t : pystr) : pystr :=
  match t with
  | c :: t' => if ((c =? 32) || (c =? 9) || (c =? 10) || (c =? 13))%N then skip_ws t' else t
  | [] => []
  end.

(** The character after a backslash. *)
Definition unescape (c : N) : option N :=
  match c with
  | 34 => Some 34 | 92 => Some 92 | 47 => Some 47
  | 98 => Some 8 | 102 => Some 12 | 110 => Some 10 | 114 => Some 13 | 116 => Some 9
  | _ => None
  end%N.

(** After the opening quote: the string and what follows the closing quote. *)
Fixpoint parse_string (t acc : pystr) : option (pystr * pystr) :=
  match t with
  | [] => None
  | c :: t' =>
      if (c =? 34)%N then Some (acc, t')
      else if (c =? 92)%N then
        match t' with
        | e :: t'' =>
            match unescape e with
            | Some x => parse_string t'' (acc ++ [x])
            | None => None
            end
        | [] => None
        end
      else if (c <? 32)%N then None
      else parse_string t' (acc ++ [c])
  end.

Definition is_digit (c : N) : bool := ((48 <=? c) && (c <=? 57))%N.

Fixpoint parse_digits (t : pystr) (acc : Z) : Z * pystr :=
  match t with
  | c :: t' =>
      if is_digit c then parse_digits t' (10 * acc + Z.of_N (c - 48)) else (acc, t)
  | [] => (acc, [])
  end.

(** [0] or a non-zero digit followed by digits; a fraction or an exponent is
    outside the fragment. *)
Definition parse_nat (t : pystr) : option (Z * pystr) :=
  match t with
  | c :: t' =>
      if is_digit c then
        let '(z, rest) := if (c =? 48)%N then (0%Z, t') else parse_digits t 0 in
        match rest with
        | d :: _ => if ((d =? 46) || (d =? 101) || (d =? 69))%N then None else Some (z, rest)
        | [] => Some (z, rest)
        end
      else None
  | [] => None
  end.

Definition parse_word (w : pystr) (v : pyval) (t : pystr) : option (pyval * pystr) :=
  if startswith t w then Some (v, skipn (length w) t) else None.

(** [d[k] = v] *)
Fixpoint dict_set (d : list (pystr * pyval)) (k : pystr) (v : pyval) :
    list (pystr * pyval) :=
  match d with
  | [] => [(k, v)]
  | (k', v') :: d' => if pystr_eqb k' k then (k', v) :: d' else (k', v') :: dict_set d' k v
  end.

Fixpoint parse_value (fuel : nat) (t : pystr) : option (pyval * pystr) :=
  match fuel with
  | O => None
  | S fuel =>
      match skip_ws t with
      | [] => None
      | c :: t' =>
          if (c =? 110)%N then parse_word (lit "null") PNone (c :: t')
          else if (c =? 116)%N then parse_word (lit "true") (PBool true) (c :: t')
          else if (c =? 102)%N then parse_word (lit "false") (PBool false) (c :: t')
          else if (c =? 34)%N then
            match parse_string t' [] with
            | Some (s, rest) => Some (PStr s, rest)
            | None => None
            end
          else if (c =? 45)%N then
            match parse_nat t' with
            | Some (z, rest) => Some (PInt (- z), rest)
            | None => None
            end
          else if is_digit c then
            match parse_nat (c :: t') with
            | Some (z, rest) => Some (PInt z, rest)
            | None => None
            end
          else if (c =? 91)%N then
            match skip_ws t' with
            | 93%N :: rest => Some (PList [], rest)
            | _ => parse_elements fuel t' []
            end
          else if (c =? 123)%N then
            match skip_ws t' with
            | 125%N :: rest => Some (PDict [], rest)
            | _ => parse_members fuel t' []
            end
          else None
      end
  end
with parse_elements (fuel : nat) (t : pystr) (acc : list pyval) : option (pyval * pystr) :=
  match fuel with
  | O => None
  | S fuel =>
      match parse_value fuel t with
      | Some (v, rest) =>
          match skip_ws rest with
          | 44%N :: rest' => parse_elements fuel rest' (acc ++ [v])
          | 93%N :: rest' => Some (PList (acc ++ [v]), rest')
          | _ => None
          end
      | None => None
      end
  end
with parse_members (fuel : nat) (t : pystr) (acc : list (pystr * pyval)) :
    option (pyval * pystr) :=
  match fuel with
  | O => None
  | S fuel =>
      match skip_ws t with
      | 34%N :: t' =>
          match parse_string t' [] with
          | Some (k, rest) =>
              match skip_ws rest with
              | 58%N :: rest' =>
                  match parse_value fuel rest' with
                  | Some (v, rest'') =>
                      match skip_ws rest'' with
                      | 44%N :: rest''' => parse_members fuel rest''' (dict_set acc k v)
                      | 125%N :: rest''' => Some (PDict (dict_set acc k v), rest''')
                      | _ => None
                      end
                  | None => None
                  end
              | _ => None
              end
          | None => None
          end
      | _ => None
      end
  end.

(** [json.loads] on the fragment: one value and nothing after it. *)
Definition json_loads (t : pystr) : option pyval :=
  match parse_value (2 * length t + 2) t with
  | Some (v, rest) => match skip_ws rest with [] => Some v | _ => None end
  | None => None
  end.

(** *** Encoding *)

Definition hex_digit (n : N) : N := (if n <? 10 then 48 + n else 87 + n)%N.

Definition escape_u (c : N) : pystr :=
  [92; 117; hex_digit (c / 4096 mod 16); hex_digit (c / 256 mod 16);
   hex_digit (c / 16 mod 16); hex_digit (c mod 16)]%N.

(** [ensure_ascii=True]: everything outside the printable ASCII range is
    escaped, code points above the basic plane as a surrogate pair. *)
Definition escape_char (c : N) : pystr :=
  (if c =? 34 then [92; 34]
   else if c =? 92 then [92; 92]
   else if c =? 10 then [92; 110]
   else if c =? 13 then [92; 114]
   else if c =? 9 then [92; 116]
   else if c =? 8 then [92; 98]
   else if c =? 12 then [92; 102]
   else if (c <? 32) || (126 <? c) then
     if c <? 65536 then escape_u c
     else escape_u (55296 + (c - 65536) / 1024) ++ escape_u (56320 + (c - 65536) mod 1024)
   else [c])%N.

Definition dumps_str (s : pystr) : pystr :=
  [34%N] ++ concat (map escape_char s) ++ [34%N].

(** The digits after the decimal point of [n / 10^k], without trailing
    zeros. *)
Fixpoint strip_zeros (t : pystr) : pystr :=
  match t with
  | c :: t' => if (c =? 48)%N then strip_zeros t' else t
  | [] => []
  end.

Definition fraction_digits (n : Z) (k : nat) : pystr :=
  let digits := str_of_Z n in
  let padded := repeat 48%N (k - length digits) ++ digits in
  match rev (strip_zeros (rev padded)) with
  | [] => [48%N]
  | ds => ds
  end.

(** A float in full: every binary float has a finite decimal expansion.
    Python prints the shortest digits that read back as the same float and
    turns to an exponent from 1e16 on; on whole numbers below that both give
    the digits followed by [.0]. *)
Definition dumps_float (f : float) : pystr :=
  match Prim2SF f with
  | S754_nan => lit "NaN"
  | S754_infinity false => lit "Infinity"
  | S754_infinity true => lit "-Infinity"
  | S754_zero s => (if s then lit "-" else []) ++ lit "0.0"
  | S754_finite s m e =>
      (if s then lit "-" else []) ++
      (if (0 <=? e)%Z then str_of_Z (Z.pos m * 2 ^ e) ++ lit ".0"
       else
         let k := Z.to_nat (- e) in
         let n := (Z.pos m * 5 ^ Z.of_nat k)%Z in
         str_of_Z (n / 10 ^ Z.of_nat k) ++ lit "." ++
         fraction_digits (n mod 10 ^ Z.of_nat k) k)
  end.

(** [json.dumps] with its default separators. *)
Fixpoint json_dumps (v : pyval) : pystr :=
  match v with
  | PNone => lit "null"
  | PBool true => lit "true"
  | PBool false => lit "false"
  | PInt z => str_of_Z z
  | PFloat f => dumps_float f
  | PStr s => dumps_str s
  | PList l =>
      lit "[" ++
      (fix items (l : list pyval) : pystr :=
         match l with
         | [] => []
         | x :: l' =>
             json_dumps x ++ match l' with [] => [] | _ => lit ", " ++ items l' end
         end) l ++
      lit "]"
  | PDict d =>
      lit "{" ++
      (fix members (d : list (pystr * pyval)) : pystr :=
         match d with
         | [] => []
         | (k, x) :: d' =>
             dumps_str k ++ lit ": " ++ json_dumps x ++
             match d' with [] => [] | _ => lit ", " ++ members d' end
         end) d ++
      lit "}"
  end.

End Fragment.

(** ** The loop, seen without the store

    Up to the moment it pushes, the loop of lines 91-147 touches neither Redis
    nor the log: one pass over a rule either goes on to the next rule with a
    value for [is_push], or leaves the loop to push, or raises.  [rule_step]
    is that pass and [select] the loop built from it; [for_keyword_select]
    below shows that [for_keyword] is [select] followed by the push. *)

Inductive step :=
| Continue (is_push : bool)
| Break (user_id target_keyword : pyval).

Inductive selection :=
| NoMatch
| Match (keyword user_id target_keyword : pyval)
| Failed (e : exn).

Definition rbind {A B} (r : result A) (k : A -> result B) : result B :=
  match r with
  | Ok a => k a
  | Raise e => Raise e
  end.

Declare Scope result_scope.
Delimit Scope result_scope with res.
Notation "x <- m ;; k" := (rbind m (fun x => k))
  (at level 100, m at next level, right associativity) : result_scope.

Section Select.

Variable lower : pystr -> pystr.

Definition rule_step (message_text : pystr) (username : option pystr)
    (is_push : bool) (keyword : pyval) : result step :=
  (is_active <- get keyword (lit "is_active") (PBool false) ;;
   if negb (truthy is_active) then Ok (Continue is_push) else
   match_pattern <- get keyword (lit "match_pattern") (PStr (lit "exact")) ;;
   word_limit <- get keyword (lit "word_limit") (PInt 0) ;;
   has_username <- get keyword (lit "has_username") (PInt 0) ;;
   target_keyword <- get keyword (lit "keyword") (PStr []) ;;
   user_id <- get keyword (lit "user_id") PNone ;;
   is_push <- match_keyword lower is_push match_pattern target_keyword message_text ;;
   if truthy has_username && negb (truthy_str username) then Ok (Continue is_push) else
   short <- too_short word_limit message_text ;;
   if (short : bool) then Ok (Continue is_push) else
   if (is_push : bool) then Ok (Break user_id target_keyword) else Ok (Continue is_push))%res.

Fixpoint select (message_text : pystr) (username : option pystr)
    (is_push : bool) (keywords : list pyval) : selection :=
  match keywords with
  | [] => NoMatch
  | keyword :: rest =>
      match rule_step message_text username is_push keyword with
      | Raise e => Failed e
      | Ok (Continue is_push') => select message_text username is_push' rest
      | Ok (Break user_id target_keyword) => Match keyword user_id target_keyword
      end
  end.

End Select.

(** The text the rules are matched against (line 104). *)
Definition message_text (message : Message.t) : pystr :=
  or_empty (or_str (Message.text message) (Message.caption message)).

(** Lines 122-145 for the rule the loop stopped at. *)
Definition notify (json_dumps : pyval -> pystr) (repr : pyval -> pystr)
    (message : Message.t) (from_user : User.t) (chat : Chat.t)
    (user_id target_keyword : pyval) : M unit :=
  (date <- attr (Message.date message) ;;
   push json_dumps repr user_id
     (push_data message from_user chat date (message_text message) target_keyword))%py.

(** ** Observing the world *)

(** The messages of lines 56-71: no sender, own message, bot, private chat,
    neither text nor caption. *)
Definition prefiltered (message : Message.t) : bool :=
  match Message.from_user message with
  | None => true
  | Some from_user =>
      User.is_self from_user || User.is_bot from_user
      || negb (truthy_str (or_str (Message.text message) (Message.caption message)))
      || match Message.chat message with
         | Some chat =>
             match Chat.type chat with ChatType.PRIVATE => true | _ => false end
         | None => false
         end
  end.

(** [LRANGE key 0 -1]: the list under [key], empty when there is none. *)
Definition queue (w : world) (key : pystr) : list pystr :=
  match lookup_live (db w) (clock w) key with
  | Some {| value := RList l |} => l
  | _ => []
  end.

(** [TTL key]: the seconds a key has left, when it has a deadline. *)
Definition ttl (w : world) (key : pystr) : option Z :=
  match lookup_live (db w) (clock w) key with
  | Some {| deadline := Some d |} => Some (d - clock w)%Z
  | _ => None
  end.

(** Time passes between two messages. *)
Definition tick (now : Z) (w : world) : world :=
  {| db := db w; clock := now; outages := outages w; calls := calls w; log := log w |}.

(** The next [n] commands reach the server. *)
Definition connected (n : nat) (w : world) : bool :=
  forallb (fun o => match o with None => true | Some _ => false end)
    (firstn n (outages w)).

(** The commands sent from [w] to [w']. *)
Definition sent (w w' : world) : list command :=
  skipn (length (calls w)) (calls w').

(** The key holds a string, so that list commands are refused. *)
Definition holds_string (w : world) (key : pystr) : bool :=
  match lookup_live (db w) (clock w) key with
  | Some {| value := RString _ |} => true
  | _ => false
  end.

(** What [GET "listener:keywords"] replies when it gets through: the rules as
    text, if the key is there and holds a string. *)
Definition stored_rules (w : world) : option pystr :=
  match lookup_live (db w) (clock w) (lit "listener:keywords") with
  | Some {| value := RString s |} => Some s
  | _ => None
  end.

(** There are no rules to go through: the key is missing or holds the empty
    string, a text that is not JSON, or a JSON value with nothing in it. *)
Definition no_rules (json_loads : pystr -> option pyval) (w : world) : bool :=
  match lookup_live (db w) (clock w) (lit "listener:keywords") with
  | None => true
  | Some {| value := RString [] |} => true
  | Some {| value := RString s |} =>
      match json_loads s with
      | None => true
      | Some v => match py_iter v with Ok [] => true | _ => false end
      end
  | Some {| value := RList _ |} => false
  end.

(** [k] occurs in [t]. *)
Definition substring (k t : pystr) : Prop :=
  exists before after, t = before ++ k ++ after.

(** ** Concrete data *)

Module Sample.

Definition alice : User.t :=
  {| User.id := 1001; User.is_self := false; User.is_bot := false;
     User.username := Some (lit "alice"); User.full_name := Some (lit "Alice A") |}.

(** A sender who has not set a username. *)
Definition nameless : User.t :=
  {| User.id := 1002; User.is_self := false; User.is_bot := false;
     User.username := None; User.full_name := Some (lit "Bob B") |}.

Definition a_bot : User.t :=
  {| User.id := 1003; User.is_self := false; User.is_bot := true;
     User.username := Some (lit "helper_bot"); User.full_name := Some (lit "Helper") |}.

Definition group : Chat.t :=
  {| Chat.id := -100123; Chat.type := ChatType.SUPERGROUP;
     Chat.title := Some (lit "Rocq users"); Chat.username := Some (lit "rocq") |}.

Definition message_from (from_user : User.t) (text : string) : Message.t :=
  {| Message.id := 42; Message.from_user := Some from_user; Message.chat := Some group;
     Message.text := Some (lit text); Message.caption := None;
     Message.date := Some {| datetime.timestamp := 1700000000%float |};
     Message.link := lit "https://t.me/rocq/42" |}.
Arguments message_from from_user text%_string.

(** A keyspace that holds [rules] under the key the handler reads, at time
    1000 on the server's clock, with the connection up. *)
Definition world_with (rules : pystr) : world :=
  {| db := {[ lit "listener:keywords" := {| value := RString rules; deadline := None |} ]};
     clock := 1000; outages := []; calls := []; log := [] |}.

Definition empty_world : world :=
  {| db := ∅; clock := 1000; outages := []; calls := []; log := [] |}.

(** The first rule needs a sender with a username, the second has a keyword
    the messages below do not contain. *)
Definition rules_username_gate : pystr :=
  Fragment.json_lit "[{'keyword': 'foo', 'is_active': true, 'has_username': 1, 'user_id': 1}, {'keyword': 'zzz', 'is_active': true, 'user_id': 2}]".

(** The first rule needs five words. *)
Definition rules_word_limit : pystr :=
  Fragment.json_lit "[{'keyword': 'foo', 'is_active': true, 'word_limit': 5, 'user_id': 1}, {'keyword': 'zzz', 'is_active': true, 'user_id': 2}]".

(** The example of the specification: an exact rule, then a fuzzy one. *)
Definition rules_foo_bar : pystr :=
  Fragment.json_lit "[{'keyword': 'foo', 'match_pattern': 'exact', 'is_active': true, 'user_id': 1}, {'keyword': 'bar', 'match_pattern': 'fuzzy', 'is_active': true, 'user_id': 2}]".

(** One inactive rule whose keyword the messages contain. *)
Definition inactive_rule : pyval :=
  PDict [(lit "keyword", PStr (lit "foo")); (lit "is_active", PBool false);
         (lit "user_id", PInt 1)].

(** An active rule with a user and nothing else. *)
Definition bare_rule : list (pystr * pyval) :=
  [(lit "is_active", PBool true); (lit "user_id", PInt 3)].

(** The record pushed for the message [text] of [alice] in [group] when the
    loop stops at a rule with the keyword [keyword]. *)
Definition record_of_alice (text keyword : string) : pystr :=
  Fragment.json_lit "{'message_id': 42, 'message_link': 'https://t.me/rocq/42', 'chat_title': 'Rocq users', 'chat_username': 'rocq', 'chat_type': 'supergroup', 'chat_id': -100123, 'user_name': 'alice', 'user_full_name': 'Alice A', 'user_id': 1001, 'text': '"
  ++ lit text ++ Fragment.json_lit "', 'date': 1700000000.0, 'matched_keyword': '"
  ++ lit keyword ++ Fragment.json_lit "'}".
Arguments record_of_alice (text keyword)%_string.

(** The same for [nameless], whose [user_name] is [null]. *)
Definition record_of_nameless (text keyword : string) : pystr :=
  Fragment.json_lit "{'message_id': 42, 'message_link': 'https://t.me/rocq/42', 'chat_title': 'Rocq users', 'chat_username': 'rocq', 'chat_type': 'supergroup', 'chat_id': -100123, 'user_name': null, 'user_full_name': 'Bob B', 'user_id': 1002, 'text': '"
  ++ lit text ++ Fragment.json_lit "', 'date': 1700000000.0, 'matched_keyword': '"
  ++ lit keyword ++ Fragment.json_lit "'}".
Arguments record_of_nameless (text keyword)%_string.

(** The handler with the library functions of [Fragment]. *)
Definition run (message : Message.t) (w : world) : result unit * world :=
  handle_message Fragment.json_loads Fragment.json_dumps Fragment.lower Fragment.repr
    message w.

End Sample.


(** ** Reading a rule *)

(** A field of a rule with its default, for a rule that is a dict. *)
Definition field (keyword : pyval) (key : pystr) (default : pyval) : pyval :=
  match get keyword key default with
  | Ok v => v
  | Raise _ => default
  end.

(** The rule is active and its own keyword passes the test of lines 104-111
    on the text: from a clear [is_push] the test sets it. *)
Definition own_test (lower : pystr -> pystr) (text : pystr) (keyword : pyval) : bool :=
  truthy (field keyword (lit "is_active") (PBool false)) &&
  match match_keyword lower false
          (field keyword (lit "match_pattern") (PStr (lit "exact")))
          (field keyword (lit "keyword") (PStr [])) text with
  | Ok true => true
  | _ => false
  end.

(** The rule is a dict with a string for a keyword and asks neither for a
    username nor for a number of words. *)
Definition gate_free (keyword : pyval) : bool :=
  match keyword with
  | PDict _ =>
      negb (truthy (field keyword (lit "has_username") (PInt 0))) &&
      match py_gt_0 (field keyword (lit "word_limit") (PInt 0)) with
      | Ok false => true
      | _ => false
      end &&
      match field keyword (lit "keyword") (PStr []) with
      | PStr _ => true
      | _ => false
      end
  | _ => false
  end.

Definition is_dict (v : pyval) : bool :=
  match v with
  | PDict _ => true
  | _ => false
  end.

(** The message with another text and caption. *)
Definition with_text (message : Message.t) (text caption : option pystr) : Message.t :=
  {| Message.id := Message.id message;
     Message.from_user := Message.from_user message;
     Message.chat := Message.chat message;
     Message.text := text;
     Message.caption := caption;
     Message.date := Message.date message;
     Message.link := Message.link message |}.

(** * The HTTP endpoints

    The endpoints of lines 175-540 hand a request to the Telegram client and
    turn what comes back, a value or an exception, into a response or an
    exception of their own.  The client is not part of the repository: each
    endpoint takes the client method it calls as an argument, a function to
    an [outcome].  The request models of [models.py] are records with the
    fields the endpoints read. *)

Module Api.

(** [pyrogram.enums.ChatMemberStatus] *)
Module ChatMemberStatus.
Inductive t := OWNER | ADMINISTRATOR | MEMBER | RESTRICTED | LEFT | BANNED.
End ChatMemberStatus.

(** [pyrogram.enums.ChatMembersFilter] *)
Module ChatMembersFilter.
Inductive t := SEARCH | ADMINISTRATORS | RESTRICTED | BANNED | BOTS | RECENT.
End ChatMembersFilter.

(** What a request carries and a response is made of. *)
#[local] Unset Elimination Schemes.
Inductive value :=
| VNone
| VBool (b : bool)
| VInt (z : Z)
| VStr (s : pystr)
| VStatus (s : ChatMemberStatus.t)
| VDate (d : datetime.t)
| VList (l : list value)
| VDict (d : list (pystr * value)).
#[local] Set Elimination Schemes.

Definition of_str (o : option pystr) : value :=
  match o with
  | Some s => VStr s
  | None => VNone
  end.

Definition of_bool (o : option bool) : value :=
  match o with
  | Some b => VBool b
  | None => VNone
  end.

(** The instances of [Exception] the endpoints meet: the Telegram errors
    they name, [AttributeError], any other one, and the ones they raise
    themselves. *)
Inductive exc :=
| PeerIdInvalid
| ChatAdminRequired
| UserNotParticipant
| InviteRequestSent
| UsernameNotOccupied
| AttributeError
| OtherError (what : pystr)
| HTTPException (status_code : Z) (detail : pystr)
| PermissionError (message : pystr)
| UserNotFoundError (arg : value)
| GroupNotFoundError (arg : value).

Inductive outcome (A : Type) :=
| Returns (a : A)
| Raises (e : exc).
Arguments Returns {A} a.
Arguments Raises {A} e.

Definition obind {A B} (o : outcome A) (k : A -> outcome B) : outcome B :=
  match o with
  | Returns a => k a
  | Raises e => Raises e
  end.

Declare Scope api_scope.
Delimit Scope api_scope with api.
Notation "x <- m ;; k" := (obind m (fun x => k))
  (at level 100, m at next level, right associativity) : api_scope.

(** [try: body except ...: handler]: the clauses of the handler are tried in
    order on what the body raises. *)
Definition try_except {A} (body : outcome A) (handler : exc -> outcome A) : outcome A :=
  match body with
  | Returns a => Returns a
  | Raises e => handler e
  end.

(** [obj.attr] when [obj] may be [None]. *)
Definition attr {A} (o : option A) : outcome A :=
  match o with
  | Some a => Returns a
  | None => Raises AttributeError
  end.

(** [async for x in generator: body]: the generator yields [items] and then
    stops, or raises [ending]; the body can raise on an item. *)
Fixpoint async_for {A B} (body : A -> outcome B) (items : list A) (ending : option exc) :
    outcome (list B) :=
  match items with
  | [] => match ending with Some e => Raises e | None => Returns [] end
  | x :: rest =>
      (y <- body x ;;
       ys <- async_for body rest ending ;;
       Returns (y :: ys))%api
  end.

(** A generator of the client: what it yields and how it ends. *)
Record stream (A : Type) := { items : list A; ending : option exc }.
Arguments items {A} s.
Arguments ending {A} s.

(** ** Requests ([models.py]) *)

Module CreateSupergroupRequest.
Record t := { title : value; description : value }.
End CreateSupergroupRequest.

Module AddChatMembersRequest.
Record t := { group_id : value; user_ids : value }.
End AddChatMembersRequest.

Module BanChatMemberRequest.
Record t := { chat_id : value; user_id : value }.
End BanChatMemberRequest.

Module SendMessageRequest.
Record t := { user_id : value; text : value }.
End SendMessageRequest.

Module AddContactRequest.
Record t := { user_id : value; first_name : value; last_name : value }.
End AddContactRequest.

(** [pyrogram.types.ChatPrivileges], as the endpoints build and read it. *)
Module ChatPrivileges.
Record t := {
  can_manage_chat : value;
  can_delete_messages : value;
  can_delete_stories : value;
  can_manage_video_chats : value;
  can_restrict_members : value;
  can_promote_members : value;
  can_change_info : value;
  can_post_messages : value;
  can_post_stories : value;
  can_edit_messages : value;
  can_edit_stories : value;
  can_invite_users : value;
  can_pin_messages : value;
  can_manage_topics : value;
  is_anonymous : value
}.
End ChatPrivileges.

Module PromoteChatMemberRequest.
Record t := {
  chat_id : value;
  user_id : value;
  can_manage_chat : value;
  can_delete_messages : value;
  can_delete_stories : value;
  can_manage_video_chats : value;
  can_restrict_members : value;
  can_promote_members : value;
  can_change_info : value;
  can_post_messages : value;
  can_post_stories : value;
  can_edit_messages : value;
  can_edit_stories : value;
  can_invite_users : value;
  can_pin_messages : value;
  can_manage_topics : value;
  is_anonymous : value
}.
End PromoteChatMemberRequest.

Module GetChatMembersRequest.
Record t := { chat_id : value; limit : option Z; filter : option pystr }.
End GetChatMembersRequest.

Module JoinChatRequest.
Record t := { chat_id : value }.
End JoinChatRequest.

Module LeaveChatRequest.
Record t := { chat_id : value }.
End LeaveChatRequest.

(** [fastapi.UploadFile]: the file object or [None], the content type or
    [None], and what [read()] gives. *)
Module UploadFile.
Record t := { file : option unit; content_type : option pystr; read : outcome pystr }.
End UploadFile.

(** ** What the client returns *)

(** [pyrogram.types.ChatPermissions] *)
Module ChatPermissions.
Record t := {
  can_send_messages : option bool;
  can_send_media_messages : option bool;
  can_send_polls : option bool;
  can_add_web_page_previews : option bool;
  can_change_info : option bool;
  can_invite_users : option bool;
  can_pin_messages : option bool;
  can_manage_topics : option bool;
  can_send_audios : option bool;
  can_send_docs : option bool;
  can_send_games : option bool;
  can_send_gifs : option bool;
  can_send_inline : option bool;
  can_send_photos : option bool;
  can_send_plain : option bool;
  can_send_roundvideos : option bool;
  can_send_stickers : option bool;
  can_send_videos : option bool;
  can_send_voices : option bool
}.
End ChatPermissions.

(** [pyrogram.types.ChatMember] *)
Module ChatMember.
Record t := {
  user : option User.t;
  status : ChatMemberStatus.t;
  chat : option Chat.t;
  joined_date : option datetime.t;
  custom_title : option pystr;
  until_date : option datetime.t;
  invited_by : option User.t;
  promoted_by : option User.t;
  restricted_by : option User.t;
  is_member : option bool;
  can_be_edited : option bool;
  subscription_until_date : option datetime.t;
  permissions : option ChatPermissions.t;
  privileges : option ChatPrivileges.t
}.
End ChatMember.

(** [dialog.chat] *)
Module DialogChat.
Record t := {
  id : Z;
  title : option pystr;
  first_name : option pystr;
  type : ChatType.t;
  username : option pystr;
  is_creator : option bool
}.
End DialogChat.

Module Dialog.
Record t := { chat : option DialogChat.t }.
End Dialog.

(** ** The endpoints *)

Section Endpoints.

(** [str(e)] *)
Variable str : exc -> pystr.
(** [datetime.isoformat] *)
Variable isoformat : datetime.t -> pystr.

#[local] Open Scope api_scope.

(** Lines 175-188 *)
Definition create_supergroup (client : value -> value -> outcome Chat.t)
    (request : CreateSupergroupRequest.t) : outcome value :=
  try_except
    (chat <- client (CreateSupergroupRequest.title request)
               (CreateSupergroupRequest.description request) ;;
     Returns (VDict [
       (lit "groupid", VInt (Chat.id chat));
       (lit "title", of_str (Chat.title chat));
       (lit "description", CreateSupergroupRequest.description request)]))
    (fun e => Raises (HTTPException 400 (str e))).

(** Lines 191-200 *)
Definition add_chat_members (client : value -> value -> outcome unit)
    (request : AddChatMembersRequest.t) : outcome value :=
  try_except
    (_ <- client (AddChatMembersRequest.group_id request)
            (AddChatMembersRequest.user_ids request) ;;
     Returns (VDict [(lit "status", VStr (lit "success"))]))
    (fun e => Raises (HTTPException 400 (str e))).

(** Lines 203-218 *)
Definition ban_chat_member (client : value -> value -> outcome unit)
    (request : BanChatMemberRequest.t) : outcome value :=
  try_except
    (_ <- client (BanChatMemberRequest.chat_id request)
            (BanChatMemberRequest.user_id request) ;;
     Returns (VDict [(lit "status", VStr (lit "success"))]))
    (fun e =>
       match e with
       | ChatAdminRequired =>
           Raises (PermissionError (lit "You need to be an admin to ban users."))
       | UserNotParticipant =>
           Raises (UserNotFoundError (BanChatMemberRequest.user_id request))
       | PeerIdInvalid =>
           Raises (GroupNotFoundError (BanChatMemberRequest.chat_id request))
       | e => Raises (HTTPException 400 (str e))
       end).

(** Lines 221-234.  [message.id] is all that is read of the message. *)
Definition send_message (client : value -> value -> outcome Z)
    (request : SendMessageRequest.t) : outcome value :=
  try_except
    (message_id <- client (SendMessageRequest.user_id request)
                     (SendMessageRequest.text request) ;;
     Returns (VDict [(lit "message_id", VInt message_id);
                     (lit "status", VStr (lit "success"))]))
    (fun e =>
       match e with
       | UserNotParticipant =>
           Raises (UserNotFoundError (SendMessageRequest.user_id request))
       | PeerIdInvalid => Raises (HTTPException 400 (lit "Invalid user ID."))
       | e => Raises (HTTPException 400 (str e))
       end).

(** Lines 237-252 *)
Definition add_contact (client : value -> value -> value -> outcome User.t)
    (request : AddContactRequest.t) : outcome value :=
  try_except
    (user <- client (AddContactRequest.user_id request)
               (AddContactRequest.first_name request)
               (AddContactRequest.last_name request) ;;
     Returns (VDict [(lit "user_id", VInt (User.id user));
                     (lit "status", VStr (lit "success"))]))
    (fun e =>
       match e with
       | UsernameNotOccupied => Raises (HTTPException 400 (lit "Invalid username."))
       | PeerIdInvalid => Raises (HTTPException 400 (lit "Invalid user ID."))
       | e => Raises (HTTPException 400 (str e))
       end).

(** Lines 261-277: the privileges built from the request. *)
Definition privileges_of (request : PromoteChatMemberRequest.t) : ChatPrivileges.t :=
  {| ChatPrivileges.can_manage_chat := PromoteChatMemberRequest.can_manage_chat request;
     ChatPrivileges.can_delete_messages := PromoteChatMemberRequest.can_delete_messages request;
     ChatPrivileges.can_delete_stories := PromoteChatMemberRequest.can_delete_stories request;
     ChatPrivileges.can_manage_video_chats := PromoteChatMemberRequest.can_manage_video_chats request;
     ChatPrivileges.can_restrict_members := PromoteChatMemberRequest.can_restrict_members request;
     ChatPrivileges.can_promote_members := PromoteChatMemberRequest.can_promote_members request;
     ChatPrivileges.can_change_info := PromoteChatMemberRequest.can_change_info request;
     ChatPrivileges.can_post_messages := PromoteChatMemberRequest.can_post_messages request;
     ChatPrivileges.can_post_stories := PromoteChatMemberRequest.can_post_stories request;
     ChatPrivileges.can_edit_messages := PromoteChatMemberRequest.can_edit_messages request;
     ChatPrivileges.can_edit_stories := PromoteChatMemberRequest.can_edit_stories request;
     ChatPrivileges.can_invite_users := PromoteChatMemberRequest.can_invite_users request;
     ChatPrivileges.can_pin_messages := PromoteChatMemberRequest.can_pin_messages request;
     ChatPrivileges.can_manage_topics := PromoteChatMemberRequest.can_manage_topics request;
     ChatPrivileges.is_anonymous := PromoteChatMemberRequest.is_anonymous request |}.

(** Lines 255-291 *)
Definition promote_chat_member (client : value -> value -> ChatPrivileges.t -> outcome bool)
    (request : PromoteChatMemberRequest.t) : outcome value :=
  try_except
    (success <- client (PromoteChatMemberRequest.chat_id request)
                  (PromoteChatMemberRequest.user_id request) (privileges_of request) ;;
     Returns (VDict [(lit "status",
                      VStr (if (success : bool) then lit "success" else lit "failed"))]))
    (fun e =>
       match e with
       | ChatAdminRequired =>
           Raises (PermissionError (lit "You need to be an admin to promote members."))
       | UserNotParticipant =>
           Raises (UserNotFoundError (PromoteChatMemberRequest.user_id request))
       | PeerIdInvalid =>
           Raises (GroupNotFoundError (PromoteChatMemberRequest.chat_id request))
       | e => Raises (HTTPException 400 (str e))
       end).

(** Lines 303-310 *)
Definition filter_mapping : list (pystr * ChatMembersFilter.t) :=
  [(lit "search", ChatMembersFilter.SEARCH);
   (lit "administrators", ChatMembersFilter.ADMINISTRATORS);
   (lit "restricted", ChatMembersFilter.RESTRICTED);
   (lit "banned", ChatMembersFilter.BANNED);
   (lit "bots", ChatMembersFilter.BOTS);
   (lit "recent", ChatMembersFilter.RECENT)].

(** Line 313: [filter_mapping.get(request.filter, ChatMembersFilter.SEARCH)] *)
Definition chat_filter (filter : option pystr) : ChatMembersFilter.t :=
  match filter with
  | Some name =>
      match List.find (fun entry => pystr_eqb (fst entry) name) filter_mapping with
      | Some entry => snd entry
      | None => ChatMembersFilter.SEARCH
      end
  | None => ChatMembersFilter.SEARCH
  end.

(** Line 316: [request.limit or 1000] *)
Definition limit_or_1000 (limit : option Z) : Z :=
  match limit with
  | Some z => if (z =? 0)%Z then 1000 else z
  | None => 1000
  end.

(** Lines 343-403: the permissions of a member. *)
Definition permissions_dict (permissions : ChatPermissions.t) : value :=
  VDict [
    (lit "can_send_messages", of_bool (ChatPermissions.can_send_messages permissions));
    (lit "can_send_media_messages", of_bool (ChatPermissions.can_send_media_messages permissions));
    (lit "can_send_polls", of_bool (ChatPermissions.can_send_polls permissions));
    (lit "can_add_web_page_previews", of_bool (ChatPermissions.can_add_web_page_previews permissions));
    (lit "can_change_info", of_bool (ChatPermissions.can_change_info permissions));
    (lit "can_invite_users", of_bool (ChatPermissions.can_invite_users permissions));
    (lit "can_pin_messages", of_bool (ChatPermissions.can_pin_messages permissions));
    (lit "can_manage_topics", of_bool (ChatPermissions.can_manage_topics permissions));
    (lit "can_send_audios", of_bool (ChatPermissions.can_send_audios permissions));
    (lit "can_send_docs", of_bool (ChatPermissions.can_send_docs permissions));
    (lit "can_send_games", of_bool (ChatPermissions.can_send_games permissions));
    (lit "can_send_gifs", of_bool (ChatPermissions.can_send_gifs permissions));
    (lit "can_send_inline", of_bool (ChatPermissions.can_send_inline permissions));
    (lit "can_send_photos", of_bool (ChatPermissions.can_send_photos permissions));
    (lit "can_send_plain", of_bool (ChatPermissions.can_send_plain permissions));
    (lit "can_send_roundvideos", of_bool (ChatPermissions.can_send_roundvideos permissions));
    (lit "can_send_stickers", of_bool (ChatPermissions.can_send_stickers permissions));
    (lit "can_send_videos", of_bool (ChatPermissions.can_send_videos permissions));
    (lit "can_send_voice", of_bool (ChatPermissions.can_send_voices permissions))
  ].

(** Lines 404-421: the privileges of a member. *)
Definition privileges_dict (privileges : ChatPrivileges.t) : value :=
  VDict [
    (lit "can_manage_chat", ChatPrivileges.can_manage_chat privileges);
    (lit "can_delete_messages", ChatPrivileges.can_delete_messages privileges);
    (lit "can_delete_stories", ChatPrivileges.can_delete_stories privileges);
    (lit "can_manage_video_chats", ChatPrivileges.can_manage_video_chats privileges);
    (lit "can_restrict_members", ChatPrivileges.can_restrict_members privileges);
    (lit "can_promote_members", ChatPrivileges.can_promote_members privileges);
    (lit "can_change_info", ChatPrivileges.can_change_info privileges);
    (lit "can_post_messages", ChatPrivileges.can_post_messages privileges);
    (lit "can_edit_messages", ChatPrivileges.can_edit_messages privileges);
    (lit "can_edit_stories", ChatPrivileges.can_edit_stories privileges);
    (lit "can_invite_users", ChatPrivileges.can_invite_users privileges);
    (lit "can_pin_messages", ChatPrivileges.can_pin_messages privileges);
    (lit "can_manage_topics", ChatPrivileges.can_manage_topics privileges);
    (lit "is_anonymous", ChatPrivileges.is_anonymous privileges)
  ].

(** Lines 318-422: the dict of one member. *)
Definition member_dict (member : ChatMember.t) : outcome value :=
  user <- attr (ChatMember.user member) ;;
  Returns (VDict [
    (lit "user_id", VInt (User.id user));
    (lit "user_name", of_str (User.username user));
    (lit "status", VStatus (ChatMember.status member));
    (lit "is_bot", VBool (User.is_bot user));
    (lit "chat", match ChatMember.chat member with
                 | Some chat => of_str (Chat.title chat)
                 | None => VNone
                 end);
    (lit "joined_date", match ChatMember.joined_date member with
                        | Some d => VStr (isoformat d)
                        | None => VNone
                        end);
    (lit "custom_title", of_str (ChatMember.custom_title member));
    (lit "until_date", match ChatMember.until_date member with
                       | Some d => VStr (isoformat d)
                       | None => VNone
                       end);
    (lit "invited_by", match ChatMember.invited_by member with
                       | Some u => of_str (User.username u)
                       | None => VNone
                       end);
    (lit "promoted_by", match ChatMember.promoted_by member with
                        | Some u => of_str (User.username u)
                        | None => VNone
                        end);
    (lit "restricted_by", match ChatMember.restricted_by member with
                          | Some u => of_str (User.username u)
                          | None => VNone
                          end);
    (lit "is_member", of_bool (ChatMember.is_member member));
    (lit "can_be_edited", of_bool (ChatMember.can_be_edited member));
    (lit "subscription_until_date", match ChatMember.subscription_until_date member with
                                    | Some d => VDate d
                                    | None => VNone
                                    end);
    (lit "permissions", match ChatMember.permissions member with
                        | Some p => permissions_dict p
                        | None => VNone
                        end);
    (lit "privileges", match ChatMember.privileges member with
                       | Some p => privileges_dict p
                       | None => VNone
                       end)]).

(** Lines 294-437 *)
Definition get_chat_members
    (client : value -> Z -> ChatMembersFilter.t -> stream ChatMember.t)
    (request : GetChatMembersRequest.t) : outcome value :=
  try_except
    (let chat_filter := chat_filter (GetChatMembersRequest.filter request) in
     let members :=
       client (GetChatMembersRequest.chat_id request)
         (limit_or_1000 (GetChatMembersRequest.limit request)) chat_filter in
     members <- async_for member_dict (items members) (ending members) ;;
     Returns (VDict [(lit "members", VList members)]))
    (fun e =>
       match e with
       | ChatAdminRequired =>
           Raises (HTTPException 403
                     (lit "You need to be an admin to get the members list."))
       | UserNotParticipant =>
           Raises (HTTPException 404 (lit "The user is not a participant in the chat."))
       | PeerIdInvalid => Raises (HTTPException 400 (lit "Invalid chat ID."))
       | e => Raises (HTTPException 400 (str e))
       end).

(** Lines 440-471 *)
Definition set_chat_photo (client : Z -> pystr -> outcome unit)
    (chat_id : Z) (file : UploadFile.t) : outcome value :=
  try_except
    (_ <- match UploadFile.file file with
          | None => Raises (HTTPException 400 (lit "No file uploaded"))
          | Some _ => Returns tt
          end ;;
     content_type <- attr (UploadFile.content_type file) ;;
     _ <- (if startswith content_type (lit "image")
           then file_content <- UploadFile.read file ;;
                client chat_id file_content
           else Raises (HTTPException 415
                  (lit "Unsupported Media Type. Please upload an image or video file."))) ;;
     Returns (VDict [(lit "status", VStr (lit "success"))]))
    (fun e =>
       match e with
       | ChatAdminRequired =>
           Raises (PermissionError
                     (lit "You need to be an admin to change the chat photo."))
       | PeerIdInvalid => Raises (GroupNotFoundError (VInt chat_id))
       | e => Raises (HTTPException 400 (str e))
       end).

(** Lines 483-491: the dict of one dialog. *)
Definition dialog_dict (dialog : Dialog.t) : outcome value :=
  chat <- attr (Dialog.chat dialog) ;;
  Returns (VDict [
    (lit "id", VInt (DialogChat.id chat));
    (lit "title", if truthy_str (DialogChat.title chat)
                  then of_str (DialogChat.title chat)
                  else of_str (DialogChat.first_name chat));
    (lit "type", VStr (ChatType.value (DialogChat.type chat)));
    (lit "username", if truthy_str (DialogChat.username chat)
                     then of_str (DialogChat.username chat)
                     else VNone);
    (lit "creator", of_bool (DialogChat.is_creator chat))]).

(** Lines 474-495 *)
Definition get_dialogs (client : option Z -> stream Dialog.t) (limit : option Z) :
    outcome value :=
  try_except
    (let dialogs := client limit in
     dialogs <- async_for dialog_dict (items dialogs) (ending dialogs) ;;
     Returns (VDict [(lit "dialogs", VList dialogs)]))
    (fun e => Raises (HTTPException 400 (str e))).

(** Lines 498-510.  [TOKEN] is [os.getenv("SECRET_TOKEN")], a string or
    [None]. *)
Definition get_me (TOKEN : option pystr) (client : unit -> outcome User.t)
    (token : pystr) : outcome value :=
  try_except
    (_ <- (if negb (bool_decide (Some token = TOKEN))
           then Raises (HTTPException 401 (lit "Invalid token"))
           else Returns tt) ;;
     me <- client tt ;;
     Returns (VDict [
       (lit "id", VInt (User.id me));
       (lit "username", of_str (User.username me));
       (lit "full_name", of_str (User.full_name me))]))
    (fun e => Raises (HTTPException 400 (str e))).

(** [f"{title}"] for a title that is a string or [None]. *)
Definition format_title (title : option pystr) : pystr :=
  match title with
  | Some s => s
  | None => lit "None"
  end.

(** Lines 513-526 *)
Definition join_chat (client : value -> outcome Chat.t) (request : JoinChatRequest.t) :
    outcome value :=
  try_except
    (chat <- client (JoinChatRequest.chat_id request) ;;
     Returns (VDict [
       (lit "status", VStr (lit "success"));
       (lit "message", VStr (lit "Successfully joined " ++ format_title (Chat.title chat)))]))
    (fun e =>
       match e with
       | PeerIdInvalid => Raises (HTTPException 404 (lit "Chat not found"))
       | InviteRequestSent =>
           Returns (VDict [(lit "status", VStr (lit "verify"));
                           (lit "message", VStr (lit "Invite request sent"))])
       | e => Raises (HTTPException 400 (str e))
       end).

(** Lines 529-540 *)
Definition leave_chat (client : value -> outcome unit) (request : LeaveChatRequest.t) :
    outcome value :=
  try_except
    (_ <- client (LeaveChatRequest.chat_id request) ;;
     Returns (VDict [(lit "status", VStr (lit "success"));
                     (lit "message", VStr (lit "Successfully left the chat"))]))
    (fun e =>
       match e with
       | PeerIdInvalid => Raises (HTTPException 404 (lit "Chat not found"))
       | e => Raises (HTTPException 400 (str e))
       end).

End Endpoints.

(** ** Reading a response *)

(** The exception is one the endpoints raise themselves. *)
Definition own_exception (e : exc) : bool :=
  match e with
  | HTTPException _ _ | PermissionError _ | UserNotFoundError _ | GroupNotFoundError _ => true
  | _ => false
  end.

(** The status code, for an [HTTPException]. *)
Definition status_of (e : exc) : option Z :=
  match e with
  | HTTPException status_code _ => Some status_code
  | _ => None
  end.

(** A field of a dict. *)
Fixpoint lookup (d : list (pystr * value)) (key : pystr) : option value :=
  match d with
  | [] => None
  | (k, v) :: d' => if pystr_eqb k key then Some v else lookup d' key
  end.

(** The filter of the request is one of the six names of [filter_mapping]. *)
Definition known_filter (filter : option pystr) : bool :=
  match filter with
  | Some name => existsb (fun entry => pystr_eqb (fst entry) name) filter_mapping
  | None => false
  end.

(** ** Concrete data *)

(** [str(e)] as Starlette prints an [HTTPException], status and detail; for
    the other exceptions a text that stands for their message. *)
Definition str_sample (e : exc) : pystr :=
  match e with
  | HTTPException status_code detail => str_of_Z status_code ++ lit ": " ++ detail
  | PermissionError message => message
  | OtherError what => what
  | PeerIdInvalid => lit "PEER_ID_INVALID"
  | ChatAdminRequired => lit "CHAT_ADMIN_REQUIRED"
  | UserNotParticipant => lit "USER_NOT_PARTICIPANT"
  | InviteRequestSent => lit "INVITE_REQUEST_SENT"
  | UsernameNotOccupied => lit "USERNAME_NOT_OCCUPIED"
  | AttributeError => lit "attribute of None"
  | UserNotFoundError _ => lit "user not found"
  | GroupNotFoundError _ => lit "group not found"
  end.

Definition isoformat_sample (d : datetime.t) : pystr := lit "2023-11-14T22:13:20".

(** A plain member: a user and a status, nothing else set. *)
Definition member_of (user : option User.t) : ChatMember.t :=
  {| ChatMember.user := user; ChatMember.status := ChatMemberStatus.MEMBER;
     ChatMember.chat := None; ChatMember.joined_date := None;
     ChatMember.custom_title := None; ChatMember.until_date := None;
     ChatMember.invited_by := None; ChatMember.promoted_by := None;
     ChatMember.restricted_by := None; ChatMember.is_member := None;
     ChatMember.can_be_edited := None; ChatMember.subscription_until_date := None;
     ChatMember.permissions := None; ChatMember.privileges := None |}.

(** A private chat in the dialog list: no title, no username set. *)
Definition dialog_of (first_name : string) (username : option pystr) : Dialog.t :=
  {| Dialog.chat :=
       Some {| DialogChat.id := 77; DialogChat.title := None;
               DialogChat.first_name := Some (lit first_name);
               DialogChat.type := ChatType.PRIVATE;
               DialogChat.username := username;
               DialogChat.is_creator := None |} |}.
Arguments dialog_of first_name%_string username.

(** An upload of the given content type. *)
Definition upload_of (content_type : string) : UploadFile.t :=
  {| UploadFile.file := Some tt; UploadFile.content_type := Some (lit content_type);
     UploadFile.read := Returns (lit "bytes") |}.
Arguments upload_of content_type%_string.

End Api.

(** ** More concrete data *)

Module Cases.

(** The rules of a JSON text, for a text that is a list. *)
Definition rules_of (text : pystr) : list pyval :=
  match Fragment.json_loads text with
  | Some (PList rules) => rules
  | _ => []
  end.

(** The connection lets one command through and then times out. *)
Definition flaky_world : world :=
  {| db := empty; clock := 1000; outages := [None; Some TimeoutError];
     calls := []; log := [] |}.


(** The first rule needs a sender with a username; the second has a pattern
    that is neither ["exact"] nor ["fuzzy"] and a keyword the messages do not
    contain. *)
Definition rules_unknown_pattern : pystr :=
  Fragment.json_lit "[{'keyword': 'foo', 'is_active': true, 'has_username': 1, 'user_id': 1}, {'keyword': 'zzz', 'match_pattern': 'regex', 'is_active': true, 'user_id': 2}]".

(** An active rule for every text, without a user. *)
Definition ownerless_rule : pyval := PDict [(lit "is_active", PBool true)].

(** A client that lists two private chats, the second with an empty
    username. *)
Definition two_dialogs (limit : option Z) : Api.stream Api.Dialog.t :=
  {| Api.items := [Api.dialog_of "Ann" (Some (lit "ann")); Api.dialog_of "Ben" (Some [])];
     Api.ending := None |}.

End Cases.
(** * Properties *)

(** ** Strings *)

Lemma pystr_eqb_eq (a b : pystr) : pystr_eqb a b = true <-> a = b.
Proof. unfold pystr_eqb. rewrite bool_decide_eq_true. reflexivity. Qed.

Lemma startswith_spec (t k : pystr) :
  startswith t k = true <-> exists after, t = k ++ after.
Proof.
  revert t. induction k as [|c k IH]; intros t; simpl.
  - split; [intros _; exists t; reflexivity | intros _; destruct t; reflexivity].
  - destruct t as [|d t]; simpl.
    + split; [discriminate | intros [after H]; discriminate].
    + rewrite andb_true_iff, N.eqb_eq, IH. split.
      * intros [-> [after ->]]. exists after. reflexivity.
      * intros [after H]. injection H as -> ->. split; [reflexivity | eauto].
Qed.

(** [contains] decides [substring]. *)
Lemma contains_spec (t k : pystr) : contains t k = true <-> substring k t.
Proof.
  unfold substring. induction t as [|d t IH]; cbn [contains].
  - rewrite orb_false_r, startswith_spec. split.
    + intros [after H]. exists [], after. exact H.
    + intros [before [after H]]. destruct before; simpl in H.
      * eauto.
      * discriminate.
  - rewrite orb_true_iff, startswith_spec, IH. split.
    + intros [[after H] | [before [after H]]].
      * exists [], after. exact H.
      * exists (d :: before), after. simpl. rewrite H. reflexivity.
    + intros [before [after H]]. destruct before as [|c before]; simpl in H.
      * left. eauto.
      * right. injection H as _ H. eauto.
Qed.

Lemma contains_empty (t : pystr) : contains t [] = true.
Proof. apply contains_spec. exists [], t. reflexivity. Qed.

(** ** The loop is [select], then the push *)

Section Loop.

Variable json_dumps : pyval -> pystr.
Variable lower : pystr -> pystr.
Variable repr : pyval -> pystr.

Lemma for_keyword_step message from_user chat is_push keyword rest w :
  for_keyword json_dumps lower repr message from_user chat is_push (keyword :: rest) w =
  match rule_step lower (message_text message) (User.username from_user) is_push keyword with
  | Raise e => (Raise e, w)
  | Ok (Continue is_push') =>
      for_keyword json_dumps lower repr message from_user chat is_push' rest w
  | Ok (Break user_id target_keyword) =>
      notify json_dumps repr message from_user chat user_id target_keyword w
  end.
Proof.
  cbn [for_keyword]. unfold rule_step, notify, message_text, bind, lift, rbind.
  destruct (get keyword (lit "is_active") (PBool false)) as [is_active|e]; [|reflexivity].
  destruct (negb (truthy is_active)); [reflexivity|].
  destruct (get keyword (lit "match_pattern") (PStr (lit "exact"))); [|reflexivity].
  destruct (get keyword (lit "word_limit") (PInt 0)) as [word_limit|]; [|reflexivity].
  destruct (get keyword (lit "has_username") (PInt 0)) as [has_username|]; [|reflexivity].
  destruct (get keyword (lit "keyword") (PStr [])); [|reflexivity].
  destruct (get keyword (lit "user_id") PNone); [|reflexivity].
  destruct (match_keyword _ _ _ _ _) as [is_push'|]; [|reflexivity].
  destruct (truthy has_username && negb (truthy_str (User.username from_user)));
    [reflexivity|].
  destruct (too_short word_limit _) as [[]|]; [reflexivity| |reflexivity].
  destruct is_push'; reflexivity.
Qed.

Lemma for_keyword_select message from_user chat is_push keywords w :
  for_keyword json_dumps lower repr message from_user chat is_push keywords w =
  match select lower (message_text message) (User.username from_user) is_push keywords with
  | NoMatch => (Ok tt, w)
  | Failed e => (Raise e, w)
  | Match _ user_id target_keyword =>
      notify json_dumps repr message from_user chat user_id target_keyword w
  end.
Proof.
  revert is_push. induction keywords as [|keyword rest IH]; intros is_push; [reflexivity|].
  rewrite for_keyword_step. cbn [select].
  destruct (rule_step _ _ _ _ _) as [[is_push'|user_id target_keyword]|e];
    [apply IH | reflexivity | reflexivity].
Qed.

End Loop.

(** ** Tactics for running the handler *)

Lemma sent_app w w' l : calls w' = calls w ++ l -> sent w w' = l.
Proof. unfold sent. intros ->. apply drop_app_length. Qed.

Lemma sent_same w w' : calls w' = calls w -> sent w w' = [].
Proof. intros H. apply sent_app. rewrite app_nil_r. exact H. Qed.

(** Rewrite [sent w w'] into the list of commands, for a [w'] whose [calls]
    are those of [w] with commands appended. *)
Ltac eval_sent :=
  repeat match goal with
    | |- context [sent ?w ?w'] =>
        first
          [ rewrite (sent_same w w') by reflexivity
          | erewrite (sent_app w w') by (cbn [calls]; rewrite <- ?app_assoc; reflexivity) ]
    | H : context [sent ?w ?w'] |- _ =>
        first
          [ rewrite (sent_same w w') in H by reflexivity
          | erewrite (sent_app w w') in H
              by (cbn [calls]; rewrite <- ?app_assoc; reflexivity) ]
    end;
  cbn [app] in *.

(** Unfold the handler down to the commands and split on everything it
    tests. *)
Ltac unfold_handler :=
  unfold handle_message_body, notify, push, redis_get, redis_rpush, redis_expire,
    redis_call, logging, attr, bind, lift, ret in *.

Ltac run_handler :=
  unfold_handler;
  repeat first
    [ progress (cbn [db clock outages calls log fst snd] in * )
    | case_match; simplify_eq
    | rewrite for_keyword_select in *; unfold_handler ].

Section Handler_properties.

Variable json_loads : pystr -> option pyval.
Variable json_dumps : pyval -> pystr.
Variable lower : pystr -> pystr.
Variable repr : pyval -> pystr.

(** ** Messages that are dropped before the store is reached *)

Lemma value_private (c : ChatType.t) :
  pystr_eqb (ChatType.value c) (lit "private") =
  match c with ChatType.PRIVATE => true | _ => false end.
Proof. destruct c; reflexivity. Qed.

(** C4. A message without a sender, from the account itself, from a bot, from
    a private chat, or with neither text nor caption is dropped: the handler
    returns normally and sends no command to Redis, neither the [GET] of the
    rules nor an [RPUSH], so the keyspace is as it was. *)
Theorem prefiltered_message_reaches_no_store message w :
  prefiltered message = true ->
  fst (handle_message json_loads json_dumps lower repr message w) = Ok tt /\
  calls (snd (handle_message json_loads json_dumps lower repr message w)) = calls w /\
  db (snd (handle_message json_loads json_dumps lower repr message w)) = db w.
Proof.
  unfold prefiltered, handle_message, handle_message_body.
  destruct (Message.from_user message) as [from_user|]; [|auto].
  destruct (User.is_self from_user); [auto|].
  destruct (truthy_str (or_str _ _)); [|auto].
  unfold bind, attr, lift, ret. cbn [negb orb].
  destruct (Message.chat message) as [chat|]; [|auto].
  rewrite value_private.
  destruct (User.is_bot from_user), (Chat.type chat); cbn; auto; discriminate.
Qed.

(** ** What the handler can raise *)

Lemma get_raises v key default e : get v key default = Raise e -> e = AttributeError.
Proof. destruct v; simpl; congruence. Qed.

Lemma match_keyword_raises is_push match_pattern target_keyword text e :
  match_keyword lower is_push match_pattern target_keyword text = Raise e ->
  e = TypeError \/ e = AttributeError.
Proof.
  unfold match_keyword, py_in, py_lower_in.
  repeat case_match; intros; simplify_eq; auto.
Qed.

Lemma too_short_raises word_limit text e :
  too_short word_limit text = Raise e -> e = TypeError.
Proof.
  unfold too_short, py_gt_0, py_len_lt. repeat case_match; intros; simplify_eq; auto.
Qed.

Lemma rule_step_raises text username is_push keyword e :
  rule_step lower text username is_push keyword = Raise e ->
  e = TypeError \/ e = AttributeError.
Proof.
  unfold rule_step, rbind.
  repeat case_match; intros; simplify_eq;
    repeat match goal with
    | H : get _ _ _ = Raise _ |- _ => apply get_raises in H
    | H : match_keyword _ _ _ _ _ = Raise _ |- _ => apply match_keyword_raises in H
    | H : too_short _ _ = Raise _ |- _ => apply too_short_raises in H
    end; auto.
Qed.

Lemma select_raises text username is_push keywords e :
  select lower text username is_push keywords = Failed e ->
  e = TypeError \/ e = AttributeError.
Proof.
  revert is_push. induction keywords as [|keyword rest IH]; intros is_push; cbn [select].
  - discriminate.
  - destruct (rule_step _ _ _ _ _) as [[is_push'|]|e'] eqn:Hstep.
    + apply IH.
    + discriminate.
    + intros [= <-]. eapply rule_step_raises, Hstep.
Qed.

Lemma py_iter_raises v e : py_iter v = Raise e -> e = TypeError.
Proof. destruct v; simpl; congruence. Qed.

Lemma handle_message_body_raises message w e w' :
  handle_message_body json_loads json_dumps lower repr message w = (Raise e, w') ->
  is_Exception e = true.
Proof.
  intros H. run_handler; try reflexivity.
  all: try match goal with
       | H : select _ _ _ _ _ = Failed _ |- _ =>
           apply select_raises in H; destruct H; subst; reflexivity
       | H : py_iter _ = Raise _ |- _ => apply py_iter_raises in H; subst; reflexivity
       end.
Qed.

(** ** The commands the handler sends *)

(** The [except] clause changes nothing but the log. *)
Lemma handle_message_world message w :
  let body := handle_message_body json_loads json_dumps lower repr message w in
  let w' := snd (handle_message json_loads json_dumps lower repr message w) in
  db w' = db (snd body) /\ clock w' = clock (snd body) /\
  outages w' = outages (snd body) /\ calls w' = calls (snd body) /\
  log w' = log (snd body) ++
           match fst body with Raise e => [ERROR_handling e] | Ok _ => [] end.
Proof.
  cbv zeta. unfold handle_message.
  destruct (handle_message_body _ _ _ _ _ _) as [[[]|e] w'] eqn:Hbody; cbn [fst snd].
  - rewrite app_nil_r. auto.
  - rewrite (handle_message_body_raises _ _ _ _ Hbody). cbn. auto.
Qed.

Lemma handle_message_sent message w :
  sent w (snd (handle_message json_loads json_dumps lower repr message w)) =
  sent w (snd (handle_message_body json_loads json_dumps lower repr message w)).
Proof.
  unfold sent. destruct (handle_message_world message w) as (_ & _ & _ & -> & _).
  reflexivity.
Qed.


Lemma handle_message_returns message w :
  fst (handle_message json_loads json_dumps lower repr message w) = Ok tt.
Proof.
  unfold handle_message.
  destruct (handle_message_body _ _ _ _ _ _) as [[[]|e] w'] eqn:Hbody; [reflexivity|].
  rewrite (handle_message_body_raises _ _ _ _ Hbody). reflexivity.
Qed.


(** ** No rules *)

Lemma no_rules_body message w :
  no_rules json_loads w = true ->
  let body := handle_message_body json_loads json_dumps lower repr message w in
  db (snd body) = db w /\
  sent w (snd body) `prefix_of` [GET (lit "listener:keywords")].
Proof.
  cbv zeta. unfold no_rules. intros Hrules.
  destruct (handle_message_body _ _ _ _ _ _) as [r w'] eqn:Hbody. cbn [snd].
  run_handler; eval_sent; cbn [or_empty] in *;
    repeat match goal with
      | H1 : ?x = _, H2 : ?x = _ |- _ => rewrite H1 in H2; cbn [select] in *; simplify_eq
      end.
  all: split; [reflexivity|].
  all: first [apply prefix_nil | reflexivity].
Qed.

(** C2. When the key of the rules is missing, or holds the empty string, a
    text that is not JSON, or a JSON value with nothing in it, the handler
    returns normally on every message, sends no [RPUSH] (at most the [GET] of
    the rules) and leaves the keyspace as it was. *)
Theorem no_rules_no_notification message w :
  no_rules json_loads w = true ->
  let returned := handle_message json_loads json_dumps lower repr message w in
  fst returned = Ok tt /\
  sent w (snd returned) `prefix_of` [GET (lit "listener:keywords")] /\
  db (snd returned) = db w.
Proof.
  cbv zeta. intros Hrules.
  destruct (handle_message_world message w) as (Hdb & _ & _ & _ & _).
  destruct (no_rules_body message w Hrules) as [Hdb' Hsent].
  rewrite handle_message_sent, Hdb.
  split; [apply handle_message_returns | auto].
Qed.

End Handler_properties.
(** ** The push *)

Section Push.

Variable json_dumps : pyval -> pystr.
Variable repr : pyval -> pystr.


Lemma lookup_live_Some d now key e :
  lookup_live d now key = Some e -> d !! key = Some e /\ live now e = true.
Proof.
  unfold lookup_live. destruct (d !! key) as [e'|]; [|discriminate].
  destruct (live now e') eqn:Hlive; [|discriminate]. intros [= <-]. auto.
Qed.

Lemma lookup_live_insert d now key e :
  lookup_live (<[key := e]> d) now key = if live now e then Some e else None.
Proof. unfold lookup_live. rewrite lookup_insert_eq. reflexivity. Qed.

(** With the connection up and no string under the key, the push goes
    through: the record is at the tail of the list and the list expires 24
    hours from now. *)
Lemma push_connected user_id data w :
  connected 2 w = true ->
  holds_string w (push_key repr user_id) = false ->
  push json_dumps repr user_id data w =
  (Ok tt,
   {| db := <[push_key repr user_id :=
                {| value := RList (queue w (push_key repr user_id) ++ [json_dumps data]);
                   deadline := Some (clock w + 86400)%Z |}]> (db w);
      clock := clock w;
      outages := tail (tail (outages w));
      calls := calls w ++ [RPUSH (push_key repr user_id) (json_dumps data);
                           EXPIRE (push_key repr user_id) 86400];
      log := log w ++ [INFO_pushed user_id] |}).
Proof.
  unfold connected, holds_string, queue. intros Hup Hkey.
  unfold push, redis_rpush, redis_expire, redis_call, logging, bind.
  destruct (outages w) as [|[e|] [|[e'|] rest]]; try discriminate Hup;
    destruct (lookup_live (db w) (clock w) _) as [[[s|l] dl]|] eqn:Hlive;
    try discriminate Hkey;
    cbn [db clock outages calls log tail];
    rewrite lookup_live_insert;
    try (apply lookup_live_Some in Hlive as [_ Hlive]);
    unfold live in *; cbn [deadline value] in *; rewrite ?Hlive;
    change (0 <? 24 * 60 * 60)%Z with true; cbn iota;
    rewrite insert_insert_eq, <- app_assoc; reflexivity.
Qed.

(** C5. A push appends the serialised record at the tail of the list kept
    under the recipient's key and then sets the key to expire in 24 hours.
    After a second push to the same recipient less than 24 hours later the
    list ends with the two records in the order they were pushed, and the 24
    hours count from the second push: the time that had run off the first
    deadline is restored. *)
Theorem push_appends_then_expires user_id a b now w :
  let key := push_key repr user_id in
  let first := push json_dumps repr user_id a w in
  let second := push json_dumps repr user_id b (tick now (snd first)) in
  connected 4 w = true ->
  holds_string w key = false ->
  (clock w <= now < clock w + 86400)%Z ->
  fst first = Ok tt /\ fst second = Ok tt /\
  sent w (snd first) = [RPUSH key (json_dumps a); EXPIRE key 86400] /\
  queue (snd first) key = queue w key ++ [json_dumps a] /\
  ttl (snd first) key = Some 86400%Z /\
  ttl (tick now (snd first)) key = Some (86400 - (now - clock w))%Z /\
  sent (tick now (snd first)) (snd second) =
    [RPUSH key (json_dumps b); EXPIRE key 86400] /\
  queue (snd second) key = queue w key ++ [json_dumps a; json_dumps b] /\
  ttl (snd second) key = Some 86400%Z.
Proof.
  cbv zeta. intros Hup Hkey Hnow.
  assert (Hup2 : connected 2 w = true).
  { revert Hup. unfold connected.
    destruct (outages w) as [|[|] [|[|] ?]]; cbn; auto; discriminate. }
  rewrite (push_connected user_id a w Hup2 Hkey). cbn [fst snd].
  set (w1 := tick now _).
  assert (Hlive1 : lookup_live (db w1) (clock w1) (push_key repr user_id) =
            Some {| value := RList (queue w (push_key repr user_id) ++ [json_dumps a]);
                    deadline := Some (clock w + 86400)%Z |}).
  { subst w1. cbn [tick db clock]. rewrite lookup_live_insert. cbn [live deadline].
    destruct (Z.ltb_spec now (clock w + 86400)); [reflexivity | lia]. }
  assert (Hup1 : connected 2 w1 = true).
  { revert Hup. subst w1. unfold connected. cbn [tick outages].
    destruct (outages w) as [|[|] [|[|] [|[|] [|[|] ?]]]]; cbn; auto; discriminate. }
  assert (Hkey1 : holds_string w1 (push_key repr user_id) = false).
  { unfold holds_string. rewrite Hlive1. reflexivity. }
  rewrite (push_connected user_id b w1 Hup1 Hkey1). cbn [fst snd].
  assert (Hq1 : queue w1 (push_key repr user_id) =
                queue w (push_key repr user_id) ++ [json_dumps a]).
  { unfold queue at 1. rewrite Hlive1. reflexivity. }
  rewrite Hq1, <- app_assoc. cbn [app].
  repeat split.
  - apply sent_app. reflexivity.
  - unfold queue at 1. cbn [db clock]. rewrite lookup_live_insert. cbn [live deadline].
    destruct (Z.ltb_spec (clock w) (clock w + 86400)); [reflexivity | lia].
  - unfold ttl. cbn [db clock]. rewrite lookup_live_insert. cbn [live deadline].
    destruct (Z.ltb_spec (clock w) (clock w + 86400)); [f_equal; lia | lia].
  - unfold ttl. rewrite Hlive1. subst w1. cbn [tick clock]. f_equal. lia.
  - apply sent_app. reflexivity.
  - unfold queue at 1. cbn [db clock]. rewrite lookup_live_insert. cbn [live deadline].
    destruct (Z.ltb_spec (clock w1) (clock w1 + 86400)); [reflexivity | lia].
  - unfold ttl. cbn [db clock]. rewrite lookup_live_insert. cbn [live deadline].
    destruct (Z.ltb_spec (clock w1) (clock w1 + 86400)); [f_equal; lia | lia].
Qed.

End Push.

(** ** One rule *)

Section Rule.

Variable json_dumps : pyval -> pystr.
Variable lower : pystr -> pystr.
Variable repr : pyval -> pystr.

(** Once [is_push] is true no rule makes it false again. *)
Lemma match_keyword_keeps_true match_pattern target_keyword text b :
  match_keyword lower true match_pattern target_keyword text = Ok b -> b = true.
Proof. unfold match_keyword. repeat case_match; congruence. Qed.

(** The two gates.  A rule that is active and whose test did not raise is
    passed over when it asks for a username and the sender has none, and when
    the text has fewer words than its limit; in both cases the loop goes on
    with the value the test left in [is_push]. *)
Lemma username_gate_skips text username is_push is_push' d a :
  get (PDict d) (lit "is_active") (PBool false) = Ok a -> truthy a = true ->
  match_keyword lower is_push
    (from_option (fun x => x) (PStr (lit "exact")) (dict_lookup d (lit "match_pattern")))
    (from_option (fun x => x) (PStr []) (dict_lookup d (lit "keyword"))) text = Ok is_push' ->
  truthy (from_option (fun x => x) (PInt 0) (dict_lookup d (lit "has_username"))) = true ->
  truthy_str username = false ->
  rule_step lower text username is_push (PDict d) = Ok (Continue is_push').
Proof.
  intros Hactive Ha Hmatch Hgate Hname. unfold rule_step. rewrite Hactive.
  cbn [rbind get]. rewrite Ha, Hmatch, Hgate, Hname. reflexivity.
Qed.

Lemma word_limit_gate_skips text username is_push is_push' d a :
  get (PDict d) (lit "is_active") (PBool false) = Ok a -> truthy a = true ->
  match_keyword lower is_push
    (from_option (fun x => x) (PStr (lit "exact")) (dict_lookup d (lit "match_pattern")))
    (from_option (fun x => x) (PStr []) (dict_lookup d (lit "keyword"))) text = Ok is_push' ->
  truthy (from_option (fun x => x) (PInt 0) (dict_lookup d (lit "has_username")))
    && negb (truthy_str username) = false ->
  too_short (from_option (fun x => x) (PInt 0) (dict_lookup d (lit "word_limit"))) text
    = Ok true ->
  rule_step lower text username is_push (PDict d) = Ok (Continue is_push').
Proof.
  intros Hactive Ha Hmatch Hgate Hshort. unfold rule_step. rewrite Hactive.
  cbn [rbind get]. rewrite Ha, Hmatch, Hgate, Hshort. reflexivity.
Qed.

(** With [is_push] left set by an earlier rule, the loop stops at the next
    active rule whose gates pass, whether or not its own keyword occurs in
    the text. *)
Lemma stale_flag_breaks text username d a keyword :
  get (PDict d) (lit "is_active") (PBool false) = Ok a -> truthy a = true ->
  dict_lookup d (lit "keyword") = Some (PStr keyword) ->
  truthy (from_option (fun x => x) (PInt 0) (dict_lookup d (lit "has_username")))
    && negb (truthy_str username) = false ->
  too_short (from_option (fun x => x) (PInt 0) (dict_lookup d (lit "word_limit"))) text
    = Ok false ->
  rule_step lower text username true (PDict d) =
  Ok (Break (from_option (fun x => x) PNone (dict_lookup d (lit "user_id")))
        (PStr keyword)).
Proof.
  intros Hactive Ha Hkeyword Hgate Hshort. unfold rule_step. rewrite Hactive.
  cbn [rbind get]. rewrite Ha, Hkeyword. cbn [from_option].
  assert (Hmatch : match_keyword lower true
            (from_option (fun x => x) (PStr (lit "exact"))
               (dict_lookup d (lit "match_pattern"))) (PStr keyword) text = Ok true).
  { unfold match_keyword, py_in, py_lower_in. repeat case_match; congruence. }
  rewrite Hmatch, Hgate, Hshort. reflexivity.
Qed.

(** The test of one rule against the text, for a keyword that is a string:
    under ["exact"] it holds exactly when the keyword occurs in the text as
    it is written, under ["fuzzy"] exactly when the lower-cased keyword
    occurs in the lower-cased text, and under any other pattern it does not
    hold whatever the keyword is: the rule leaves [is_push] as it found
    it. *)
Theorem match_keyword_by_pattern (match_pattern target_keyword : pyval)
    (keyword text : pystr) (is_push : bool) :
  py_eq_str match_pattern (lit "exact") = false ->
  py_eq_str match_pattern (lit "fuzzy") = false ->
  (exists b, match_keyword lower false (PStr (lit "exact")) (PStr keyword) text = Ok b /\
             (b = true <-> substring keyword text)) /\
  (exists b, match_keyword lower false (PStr (lit "fuzzy")) (PStr keyword) text = Ok b /\
             (b = true <-> substring (lower keyword) (lower text))) /\
  match_keyword lower is_push match_pattern target_keyword text = Ok is_push.
Proof.
  intros Hexact Hfuzzy. unfold match_keyword. rewrite Hexact, Hfuzzy.
  change (py_eq_str (PStr (lit "exact")) (lit "exact")) with true.
  change (py_eq_str (PStr (lit "exact")) (lit "fuzzy")) with false.
  change (py_eq_str (PStr (lit "fuzzy")) (lit "exact")) with false.
  change (py_eq_str (PStr (lit "fuzzy")) (lit "fuzzy")) with true.
  cbn [py_in py_lower_in]. repeat split.
  - exists (contains text keyword). rewrite <- contains_spec.
    destruct (contains text keyword); split; reflexivity.
  - exists (contains (lower text) (lower keyword)). rewrite <- contains_spec.
    destruct (contains (lower text) (lower keyword)); split; reflexivity.
Qed.

Lemma rule_step_inactive text username is_push keyword a :
  get keyword (lit "is_active") (PBool false) = Ok a -> truthy a = false ->
  rule_step lower text username is_push keyword = Ok (Continue is_push).
Proof. intros Hget Ha. unfold rule_step. rewrite Hget. cbn [rbind]. rewrite Ha. reflexivity. Qed.

(** The rule the loop stops at is one of the list, it is active, and the
    keyword and the recipient that go into the push are its own. *)
Lemma rule_step_Break text username is_push keyword user_id target_keyword :
  rule_step lower text username is_push keyword = Ok (Break user_id target_keyword) ->
  (exists a, get keyword (lit "is_active") (PBool false) = Ok a /\ truthy a = true) /\
  get keyword (lit "keyword") (PStr []) = Ok target_keyword /\
  get keyword (lit "user_id") PNone = Ok user_id.
Proof.
  unfold rule_step, rbind. repeat case_match; intros; simplify_eq.
  repeat split; eauto using negb_false_iff.
  eexists; split; [reflexivity|]. apply negb_false_iff. assumption.
Qed.

Lemma select_Match text username is_push keywords keyword user_id target_keyword :
  select lower text username is_push keywords = Match keyword user_id target_keyword ->
  exists is_push',
    In keyword keywords /\
    rule_step lower text username is_push' keyword = Ok (Break user_id target_keyword).
Proof.
  revert is_push. induction keywords as [|k rest IH]; intros is_push; cbn [select].
  - discriminate.
  - destruct (rule_step _ _ _ _ k) as [[is_push'|u t]|e] eqn:Hstep.
    + intros H. destruct (IH _ H) as (b & Hin & Hb). exists b. split; [right|]; assumption.
    + intros [= <- <- <-]. exists is_push. split; [left; reflexivity | assumption].
    + discriminate.
Qed.

Lemma select_skip text username is_push before keyword after :
  (forall b, rule_step lower text username b keyword = Ok (Continue b)) ->
  select lower text username is_push (before ++ keyword :: after) =
  select lower text username is_push (before ++ after).
Proof.
  intros Hskip. revert is_push.
  induction before as [|k before IH]; intros is_push; cbn [app select].
  - rewrite Hskip. reflexivity.
  - destruct (rule_step _ _ _ _ k) as [[is_push'|u t]|e]; [apply IH | reflexivity..].
Qed.

(** C8. A rule whose [is_active] is false (or anything Python counts as
    false) might as well not be in the list: with it or without it the loop
    does the same thing, so it is passed over before its keyword or its
    gates are looked at, and the loop never stops at it. *)
Theorem inactive_rule_never_selected message from_user chat is_push before keyword after
    a w :
  get keyword (lit "is_active") (PBool false) = Ok a ->
  truthy a = false ->
  for_keyword json_dumps lower repr message from_user chat is_push
    (before ++ keyword :: after) w =
  for_keyword json_dumps lower repr message from_user chat is_push (before ++ after) w /\
  forall user_id target_keyword,
    select lower (message_text message) (User.username from_user) is_push
      (before ++ keyword :: after) <> Match keyword user_id target_keyword.
Proof.
  intros Hget Ha. split.
  - rewrite !for_keyword_select, select_skip; [reflexivity|].
    intros b. eapply rule_step_inactive; eassumption.
  - intros user_id target_keyword Hsel.
    apply select_Match in Hsel as (b & _ & Hstep).
    rewrite (rule_step_inactive _ _ _ _ _ Hget Ha) in Hstep. discriminate.
Qed.

(** C10. Nothing in the handler checks that a rule has a keyword.  A rule
    without the field, or with the empty string, gets the empty keyword, and
    under ["exact"] (also the default) the empty keyword occurs in every text:
    such a rule, when it is active and has no gate, makes the loop stop and
    push whatever the message says.  A rule without [is_active] counts as
    inactive and is passed over. *)
Theorem empty_keyword_matches_every_text message from_user chat is_push d rest w
    a h wl user_id :
  get (PDict d) (lit "is_active") (PBool false) = Ok a -> truthy a = true ->
  get (PDict d) (lit "keyword") (PStr []) = Ok (PStr []) ->
  get (PDict d) (lit "match_pattern") (PStr (lit "exact")) = Ok (PStr (lit "exact")) ->
  get (PDict d) (lit "has_username") (PInt 0) = Ok h -> truthy h = false ->
  get (PDict d) (lit "word_limit") (PInt 0) = Ok wl -> py_gt_0 wl = Ok false ->
  get (PDict d) (lit "user_id") PNone = Ok user_id ->
  (forall text b, match_keyword lower b (PStr (lit "exact")) (PStr []) text = Ok true) /\
  for_keyword json_dumps lower repr message from_user chat is_push (PDict d :: rest) w =
    notify json_dumps repr message from_user chat user_id (PStr []) w /\
  (forall d', dict_lookup d' (lit "keyword") = None ->
     get (PDict d') (lit "keyword") (PStr []) = Ok (PStr [])) /\
  (forall d', dict_lookup d' (lit "is_active") = None ->
     for_keyword json_dumps lower repr message from_user chat is_push (PDict d' :: rest) w =
     for_keyword json_dumps lower repr message from_user chat is_push rest w).
Proof.
  intros Hactive Ha Hkeyword Hpattern Hgate Hh Hlimit Hwl Huser.
  assert (Hmatch : forall text b,
             match_keyword lower b (PStr (lit "exact")) (PStr []) text = Ok true).
  { intros text b. unfold match_keyword.
    change (py_eq_str (PStr (lit "exact")) (lit "exact")) with true.
    cbn [py_in]. rewrite contains_empty. reflexivity. }
  repeat split.
  - exact Hmatch.
  - rewrite for_keyword_step. unfold rule_step.
    rewrite Hactive, Hpattern, Hlimit, Hgate, Hkeyword, Huser. cbn [rbind].
    rewrite Ha, Hmatch, Hh. cbn [negb andb].
    unfold too_short. rewrite Hwl. reflexivity.
  - intros d' Hnone. cbn [get]. rewrite Hnone. reflexivity.
  - intros d' Hnone. rewrite for_keyword_step. unfold rule_step. cbn [get].
    rewrite Hnone. reflexivity.
Qed.

End Rule.

(** ** The record that is pushed *)

Section Notification.

Variable json_loads : pystr -> option pyval.
Variable json_dumps : pyval -> pystr.
Variable lower : pystr -> pystr.
Variable repr : pyval -> pystr.

(** Whenever the handler sends an [RPUSH], the message had a sender, a chat
    and a date, the rules were read and decoded, the loop stopped at a rule,
    and what is pushed is the record of that message and that rule, under the
    key of the rule's user. *)
Lemma handle_message_pushes message w key item :
  In (RPUSH key item)
     (sent w (snd (handle_message json_loads json_dumps lower repr message w))) ->
  exists from_user chat date rules v keywords keyword user_id target_keyword,
    Message.from_user message = Some from_user /\
    Message.chat message = Some chat /\
    Message.date message = Some date /\
    stored_rules w = Some rules /\
    json_loads rules = Some v /\
    py_iter v = Ok keywords /\
    select lower (message_text message) (User.username from_user) false keywords =
      Match keyword user_id target_keyword /\
    key = push_key repr user_id /\
    item = json_dumps (push_data message from_user chat date (message_text message)
                         target_keyword).
Proof.
  rewrite handle_message_sent. unfold stored_rules.
  destruct (handle_message_body _ _ _ _ _ _) as [r w'] eqn:Hbody. cbn [snd].
  run_handler; eval_sent; cbn [In]; intros Hin.
  all: repeat match goal with
         | H : _ \/ _ |- _ => destruct H
         | H : False |- _ => destruct H
         | H : negb (truthy_str (Some ?s)) = false |- _ =>
             is_var s; destruct s; [discriminate H|]
         end;
       simplify_eq.
  all: cbn [or_empty] in *.
  all: eexists _, _, _, _, _, _, _, _, _; repeat split; eassumption || reflexivity.
Qed.

(** The twelve fields of the record. *)
Lemma push_data_fields message from_user chat date text target_keyword :
  let data := push_data message from_user chat date text target_keyword in
  get data (lit "message_id") PNone = Ok (PInt (Message.id message)) /\
  get data (lit "message_link") PNone = Ok (PStr (Message.link message)) /\
  get data (lit "chat_title") PNone = Ok (opt_str (Chat.title chat)) /\
  get data (lit "chat_username") PNone = Ok (opt_str (Chat.username chat)) /\
  get data (lit "chat_type") PNone = Ok (PStr (ChatType.value (Chat.type chat))) /\
  get data (lit "chat_id") PNone = Ok (PInt (Chat.id chat)) /\
  get data (lit "user_name") PNone = Ok (opt_str (User.username from_user)) /\
  get data (lit "user_full_name") PNone = Ok (opt_str (User.full_name from_user)) /\
  get data (lit "user_id") PNone = Ok (PInt (User.id from_user)) /\
  get data (lit "text") PNone = Ok (PStr text) /\
  get data (lit "date") PNone = Ok (PFloat (datetime.timestamp date)) /\
  get data (lit "matched_keyword") PNone = Ok target_keyword.
Proof. cbv zeta. repeat split. Qed.

(** C9. The record the handler pushes is a function of the message and of
    the stored rules alone: in two worlds that hold the same rules (whatever
    else differs: other keys, the clock, the log, the state of the
    connection) a push for the same message goes to the same key with the
    same record.  That record is the serialisation of a dict with the twelve
    fields, taken from the message, its chat and its sender, [date] being the
    timestamp of the message and [matched_keyword] the keyword of the rule
    the loop stopped at. *)
Theorem notification_is_determined message w1 w2 key1 item1 key2 item2 :
  stored_rules w1 = stored_rules w2 ->
  In (RPUSH key1 item1)
     (sent w1 (snd (handle_message json_loads json_dumps lower repr message w1))) ->
  In (RPUSH key2 item2)
     (sent w2 (snd (handle_message json_loads json_dumps lower repr message w2))) ->
  key1 = key2 /\ item1 = item2 /\
  exists from_user chat date rules v keywords keyword user_id target_keyword data,
    Message.from_user message = Some from_user /\
    Message.chat message = Some chat /\
    Message.date message = Some date /\
    stored_rules w1 = Some rules /\ json_loads rules = Some v /\ py_iter v = Ok keywords /\
    select lower (message_text message) (User.username from_user) false keywords =
      Match keyword user_id target_keyword /\
    In keyword keywords /\
    get keyword (lit "keyword") (PStr []) = Ok target_keyword /\
    get keyword (lit "user_id") PNone = Ok user_id /\
    key1 = push_key repr user_id /\
    item1 = json_dumps data /\
    data = push_data message from_user chat date (message_text message) target_keyword /\
    get data (lit "message_id") PNone = Ok (PInt (Message.id message)) /\
    get data (lit "message_link") PNone = Ok (PStr (Message.link message)) /\
    get data (lit "chat_title") PNone = Ok (opt_str (Chat.title chat)) /\
    get data (lit "chat_username") PNone = Ok (opt_str (Chat.username chat)) /\
    get data (lit "chat_type") PNone = Ok (PStr (ChatType.value (Chat.type chat))) /\
    get data (lit "chat_id") PNone = Ok (PInt (Chat.id chat)) /\
    get data (lit "user_name") PNone = Ok (opt_str (User.username from_user)) /\
    get data (lit "user_full_name") PNone = Ok (opt_str (User.full_name from_user)) /\
    get data (lit "user_id") PNone = Ok (PInt (User.id from_user)) /\
    get data (lit "text") PNone = Ok (PStr (message_text message)) /\
    get data (lit "date") PNone = Ok (PFloat (datetime.timestamp date)) /\
    get data (lit "matched_keyword") PNone = Ok target_keyword.
Proof.
  intros Hrules H1 H2.
  apply handle_message_pushes in H1
    as (u1 & c1 & d1 & r1 & v1 & ks1 & k1 & uid1 & t1 &
        Hu1 & Hc1 & Hd1 & Hr1 & Hv1 & Hks1 & Hsel1 & -> & ->).
  apply handle_message_pushes in H2
    as (u2 & c2 & d2 & r2 & v2 & ks2 & k2 & uid2 & t2 &
        Hu2 & Hc2 & Hd2 & Hr2 & Hv2 & Hks2 & Hsel2 & -> & ->).
  simplify_eq.
  assert (r2 = r1) as -> by congruence.
  simplify_eq.
  assert (ks2 = ks1) as -> by congruence.
  assert (Hsame : Match k2 uid2 t2 = Match k1 uid1 t1) by congruence.
  injection Hsame as -> -> ->.
  destruct (select_Match _ _ _ _ _ _ _ _ Hsel1) as (b & Hin & Hstep).
  apply rule_step_Break in Hstep as (_ & Hkeyword & Huser).
  split; [reflexivity|]. split; [reflexivity|].
  eexists u1, c1, d1, r1, v1, ks1, k1, uid1, t1, _.
  split; [assumption|]. split; [assumption|]. split; [assumption|].
  split; [assumption|]. split; [assumption|]. split; [assumption|].
  split; [assumption|]. split; [assumption|]. split; [assumption|].
  split; [assumption|]. split; [reflexivity|]. split; [reflexivity|].
  split; [reflexivity|]. apply push_data_fields.
Qed.

End Notification.

(** ** The flag that is never reset

    [is_push] is set before the loop (line 89) and only ever set to [True]
    inside it.  A rule whose keyword occurs in the text but whose gate fails
    leaves it set, and the next active rule whose gates pass is pushed,
    whatever its keyword. *)

(** C1, evaluated.  The rules are [foo] (needs a username, for user 1) and
    [zzz] (for user 2); the sender has no username and writes
    ["foo bar baz"].  The text contains [foo] and not [zzz], the first rule
    fails its gate, and the handler pushes to user 2 a record whose
    [matched_keyword] is [zzz]: the loop stops at the second rule, whose own
    test is false. *)
Theorem stale_flag_after_username_gate :
  contains (lit "foo bar baz") (lit "foo") = true /\
  contains (lit "foo bar baz") (lit "zzz") = false /\
  match_keyword Fragment.lower false (PStr (lit "exact")) (PStr (lit "zzz"))
    (lit "foo bar baz") = Ok false /\
  fst (Sample.run (Sample.message_from Sample.nameless "foo bar baz")
         (Sample.world_with Sample.rules_username_gate)) = Ok tt /\
  queue (snd (Sample.run (Sample.message_from Sample.nameless "foo bar baz")
                (Sample.world_with Sample.rules_username_gate)))
        (lit "listener:push:messages:1") = [] /\
  queue (snd (Sample.run (Sample.message_from Sample.nameless "foo bar baz")
                (Sample.world_with Sample.rules_username_gate)))
        (lit "listener:push:messages:2") =
    [Sample.record_of_nameless "foo bar baz" "zzz"].
Proof. repeat split; vm_compute; reflexivity. Qed.

(** C6, evaluated.  The rules are [foo] (at least five words, for user 1)
    and [zzz] (for user 2); the message is ["foo bar baz"], three words.  The
    first rule is the only one whose keyword occurs in the text and its word
    limit passes it over, yet a record is pushed, to user 2 and with
    [matched_keyword] [zzz]. *)
Theorem stale_flag_after_word_limit :
  length (split (lit "foo bar baz")) = 3 /\
  contains (lit "foo bar baz") (lit "zzz") = false /\
  fst (Sample.run (Sample.message_from Sample.alice "foo bar baz")
         (Sample.world_with Sample.rules_word_limit)) = Ok tt /\
  queue (snd (Sample.run (Sample.message_from Sample.alice "foo bar baz")
                (Sample.world_with Sample.rules_word_limit)))
        (lit "listener:push:messages:1") = [] /\
  queue (snd (Sample.run (Sample.message_from Sample.alice "foo bar baz")
                (Sample.world_with Sample.rules_word_limit)))
        (lit "listener:push:messages:2") =
    [Sample.record_of_alice "foo bar baz" "zzz"].
Proof. repeat split; vm_compute; reflexivity. Qed.

(** The example of the specification: [foo] exact, then [bar] fuzzy, and the
    text ["a BAR appears"].  The second rule is pushed. *)
Example fuzzy_rule_is_pushed :
  contains (lit "a BAR appears") (lit "bar") = false /\
  queue (snd (Sample.run (Sample.message_from Sample.alice "a BAR appears")
                (Sample.world_with Sample.rules_foo_bar)))
        (lit "listener:push:messages:2") =
    [Sample.record_of_alice "a BAR appears" "bar"].
Proof. repeat split; vm_compute; reflexivity. Qed.

(** ** The theorems at concrete inputs *)

Lemma prefiltered_message_reaches_no_store_witness :
  prefiltered (Sample.message_from Sample.a_bot "foo bar baz") = true /\
  fst (Sample.run (Sample.message_from Sample.a_bot "foo bar baz")
         (Sample.world_with Sample.rules_foo_bar)) = Ok tt /\
  calls (snd (Sample.run (Sample.message_from Sample.a_bot "foo bar baz")
                (Sample.world_with Sample.rules_foo_bar))) =
    calls (Sample.world_with Sample.rules_foo_bar) /\
  db (snd (Sample.run (Sample.message_from Sample.a_bot "foo bar baz")
             (Sample.world_with Sample.rules_foo_bar))) =
    db (Sample.world_with Sample.rules_foo_bar).
Proof.
  split; [reflexivity|].
  apply (prefiltered_message_reaches_no_store Fragment.json_loads Fragment.json_dumps
           Fragment.lower Fragment.repr (Sample.message_from Sample.a_bot "foo bar baz")
           (Sample.world_with Sample.rules_foo_bar)).
  reflexivity.
Defined.

Lemma no_rules_no_notification_witness :
  no_rules Fragment.json_loads (Sample.world_with (lit "[{not json")) = true /\
  fst (Sample.run (Sample.message_from Sample.alice "foo bar baz")
         (Sample.world_with (lit "[{not json"))) = Ok tt /\
  sent (Sample.world_with (lit "[{not json"))
       (snd (Sample.run (Sample.message_from Sample.alice "foo bar baz")
               (Sample.world_with (lit "[{not json"))))
    `prefix_of` [GET (lit "listener:keywords")] /\
  db (snd (Sample.run (Sample.message_from Sample.alice "foo bar baz")
             (Sample.world_with (lit "[{not json")))) =
    db (Sample.world_with (lit "[{not json")).
Proof.
  split; [vm_compute; reflexivity|].
  apply (no_rules_no_notification Fragment.json_loads Fragment.json_dumps
           Fragment.lower Fragment.repr (Sample.message_from Sample.alice "foo bar baz")
           (Sample.world_with (lit "[{not json"))).
  vm_compute; reflexivity.
Defined.

Lemma push_appends_then_expires_witness :
  connected 4 Sample.empty_world = true /\
  holds_string Sample.empty_world (push_key Fragment.repr (PInt 7)) = false /\
  (clock Sample.empty_world <= 4600 < clock Sample.empty_world + 86400)%Z /\
  queue (snd (push Fragment.json_dumps Fragment.repr (PInt 7) (PStr (lit "second"))
                (tick 4600
                   (snd (push Fragment.json_dumps Fragment.repr (PInt 7)
                           (PStr (lit "first")) Sample.empty_world)))))
        (push_key Fragment.repr (PInt 7)) =
    queue Sample.empty_world (push_key Fragment.repr (PInt 7)) ++
    [Fragment.json_dumps (PStr (lit "first")); Fragment.json_dumps (PStr (lit "second"))] /\
  ttl (snd (push Fragment.json_dumps Fragment.repr (PInt 7) (PStr (lit "second"))
              (tick 4600
                 (snd (push Fragment.json_dumps Fragment.repr (PInt 7)
                         (PStr (lit "first")) Sample.empty_world)))))
      (push_key Fragment.repr (PInt 7)) = Some 86400%Z.
Proof.
  split; [reflexivity|]. split; [vm_compute; reflexivity|].
  split; [vm_compute; split; [discriminate | reflexivity] |].
  apply (push_appends_then_expires Fragment.json_dumps Fragment.repr (PInt 7)
           (PStr (lit "first")) (PStr (lit "second")) 4600 Sample.empty_world).
  - reflexivity.
  - vm_compute; reflexivity.
  - vm_compute; split; [discriminate | reflexivity].
Defined.

Lemma match_keyword_by_pattern_witness :
  py_eq_str (PStr (lit "regex")) (lit "exact") = false /\
  py_eq_str (PStr (lit "regex")) (lit "fuzzy") = false /\
  match_keyword Fragment.lower false (PStr (lit "regex")) (PStr (lit "foo"))
    (lit "foo bar baz") = Ok false.
Proof.
  split; [reflexivity|]. split; [reflexivity|].
  apply (match_keyword_by_pattern Fragment.lower (PStr (lit "regex")) (PStr (lit "foo"))
           (lit "foo") (lit "foo bar baz") false); reflexivity.
Defined.

Lemma inactive_rule_never_selected_witness :
  get Sample.inactive_rule (lit "is_active") (PBool false) = Ok (PBool false) /\
  truthy (PBool false) = false /\
  for_keyword Fragment.json_dumps Fragment.lower Fragment.repr
    (Sample.message_from Sample.alice "foo bar baz") Sample.alice Sample.group false
    ([] ++ Sample.inactive_rule :: []) Sample.empty_world =
  for_keyword Fragment.json_dumps Fragment.lower Fragment.repr
    (Sample.message_from Sample.alice "foo bar baz") Sample.alice Sample.group false
    ([] ++ []) Sample.empty_world.
Proof.
  split; [reflexivity|]. split; [reflexivity|].
  apply (inactive_rule_never_selected Fragment.json_dumps Fragment.lower Fragment.repr
           (Sample.message_from Sample.alice "foo bar baz") Sample.alice Sample.group false
           [] Sample.inactive_rule [] (PBool false) Sample.empty_world); reflexivity.
Defined.

Lemma empty_keyword_matches_every_text_witness :
  get (PDict Sample.bare_rule) (lit "is_active") (PBool false) = Ok (PBool true) /\
  get (PDict Sample.bare_rule) (lit "keyword") (PStr []) = Ok (PStr []) /\
  get (PDict Sample.bare_rule) (lit "match_pattern") (PStr (lit "exact")) =
    Ok (PStr (lit "exact")) /\
  get (PDict Sample.bare_rule) (lit "has_username") (PInt 0) = Ok (PInt 0) /\
  get (PDict Sample.bare_rule) (lit "word_limit") (PInt 0) = Ok (PInt 0) /\
  py_gt_0 (PInt 0) = Ok false /\
  get (PDict Sample.bare_rule) (lit "user_id") PNone = Ok (PInt 3) /\
  for_keyword Fragment.json_dumps Fragment.lower Fragment.repr
    (Sample.message_from Sample.alice "anything at all") Sample.alice Sample.group false
    (PDict Sample.bare_rule :: []) Sample.empty_world =
  notify Fragment.json_dumps Fragment.repr
    (Sample.message_from Sample.alice "anything at all") Sample.alice Sample.group
    (PInt 3) (PStr []) Sample.empty_world.
Proof.
  repeat (split; [reflexivity|]).
  apply (empty_keyword_matches_every_text Fragment.json_dumps Fragment.lower Fragment.repr
           (Sample.message_from Sample.alice "anything at all") Sample.alice Sample.group
           false Sample.bare_rule [] Sample.empty_world (PBool true) (PInt 0) (PInt 0)
           (PInt 3)); reflexivity.
Defined.

Lemma notification_is_determined_witness :
  stored_rules (Sample.world_with Sample.rules_foo_bar) =
    stored_rules (tick 5000 (Sample.world_with Sample.rules_foo_bar)) /\
  In (RPUSH (lit "listener:push:messages:2") (Sample.record_of_alice "a BAR appears" "bar"))
     (sent (Sample.world_with Sample.rules_foo_bar)
        (snd (Sample.run (Sample.message_from Sample.alice "a BAR appears")
                (Sample.world_with Sample.rules_foo_bar)))) /\
  In (RPUSH (lit "listener:push:messages:2") (Sample.record_of_alice "a BAR appears" "bar"))
     (sent (tick 5000 (Sample.world_with Sample.rules_foo_bar))
        (snd (Sample.run (Sample.message_from Sample.alice "a BAR appears")
                (tick 5000 (Sample.world_with Sample.rules_foo_bar))))) /\
  exists keyword,
    get keyword (lit "keyword") (PStr []) = Ok (PStr (lit "bar")) /\
    exists data,
      Sample.record_of_alice "a BAR appears" "bar" = Fragment.json_dumps data /\
      get data (lit "matched_keyword") PNone = Ok (PStr (lit "bar")) /\
      get data (lit "text") PNone = Ok (PStr (lit "a BAR appears")).
Proof.
  assert (H1 : In (RPUSH (lit "listener:push:messages:2")
                     (Sample.record_of_alice "a BAR appears" "bar"))
                  (sent (Sample.world_with Sample.rules_foo_bar)
                     (snd (Sample.run (Sample.message_from Sample.alice "a BAR appears")
                             (Sample.world_with Sample.rules_foo_bar))))).
  { vm_compute. right. left. reflexivity. }
  assert (H2 : In (RPUSH (lit "listener:push:messages:2")
                     (Sample.record_of_alice "a BAR appears" "bar"))
                  (sent (tick 5000 (Sample.world_with Sample.rules_foo_bar))
                     (snd (Sample.run (Sample.message_from Sample.alice "a BAR appears")
                             (tick 5000 (Sample.world_with Sample.rules_foo_bar)))))).
  { vm_compute. right. left. reflexivity. }
  split; [vm_compute; reflexivity|]. split; [exact H1|]. split; [exact H2|].
  destruct (notification_is_determined Fragment.json_loads Fragment.json_dumps
              Fragment.lower Fragment.repr
              (Sample.message_from Sample.alice "a BAR appears")
              (Sample.world_with Sample.rules_foo_bar)
              (tick 5000 (Sample.world_with Sample.rules_foo_bar))
              _ _ _ _ eq_refl H1 H2)
    as (_ & _ & u & c & d & r & v & ks & k & uid & t & data &
        Hu & Hc & Hd & Hr & Hv & Hks & Hsel & Hin & Hk & Huid & Hkey & Hitem & Hdata &
        _ & _ & _ & _ & _ & _ & _ & _ & _ & Htext & _ & Hmatched).
  vm_compute in Hr. injection Hr as <-.
  vm_compute in Hv. injection Hv as <-.
  vm_compute in Hks. injection Hks as <-.
  vm_compute in Hu. injection Hu as <-.
  vm_compute in Hsel. injection Hsel as _ _ Et.
  rewrite <- Et in Hk, Hmatched.
  exists k. split; [exact Hk|]. exists data. split; [exact Hitem|].
  split; [exact Hmatched | exact Htext].
Defined.

(** * Further properties of the handler *)

(** ** What the handler does to the keyspace *)

Section Keyspace.

Variable json_loads : pystr -> option pyval.
Variable json_dumps : pyval -> pystr.
Variable lower : pystr -> pystr.
Variable repr : pyval -> pystr.

(** The handler writes through [push] only, and never moves the clock. *)
Lemma handle_message_db message w :
  let w' := snd (handle_message json_loads json_dumps lower repr message w) in
  clock w' = clock w /\
  (db w' = db w \/
   exists user_id data w1,
     db w1 = db w /\ clock w1 = clock w /\
     db w' = db (snd (push json_dumps repr user_id data w1))).
Proof.
  cbv zeta.
  destruct (handle_message_world json_loads json_dumps lower repr message w)
    as (-> & -> & _ & _ & _).
  destruct (handle_message_body _ _ _ _ _ _) as [r w'] eqn:Hbody. cbn [snd].
  unfold handle_message_body, redis_get, redis_call, logging, attr, bind, lift, ret in Hbody.
  repeat first
    [ progress (cbn [db clock outages calls log fst snd] in * )
    | case_match; simplify_eq
    | rewrite for_keyword_select in *; unfold notify, attr, bind, lift, ret in * ];
    try (split; [reflexivity | left; reflexivity]).
  all: match goal with
       | H : push _ _ ?u ?d ?w1 = (_, ?w') |- _ =>
           assert (Hclock : clock w' = clock w1);
           [ revert H; unfold push, redis_rpush, redis_expire, redis_call, logging, bind;
             repeat case_match; intros; simplify_eq; reflexivity
           | split; [exact Hclock|]; right; exists u, d, w1; rewrite H; auto ]
       end.
Qed.

Lemma lookup_live_ne d now key key' e :
  key <> key' -> lookup_live (<[key' := e]> d) now key = lookup_live d now key.
Proof. intros Hne. unfold lookup_live. rewrite lookup_insert_ne by congruence. reflexivity. Qed.

Lemma lookup_live_delete_ne d now key key' :
  key <> key' -> lookup_live (delete key' d) now key = lookup_live d now key.
Proof. intros Hne. unfold lookup_live. rewrite lookup_delete_ne by congruence. reflexivity. Qed.

Lemma live_fresh now v : live now {| value := v; deadline := Some (now + 24 * 60 * 60)%Z |} = true.
Proof. unfold live. cbn [deadline]. apply Z.ltb_lt. lia. Qed.

(** What a push does to the keyspace: nothing, when the [RPUSH] does not get
    through or is refused; otherwise the list under the key is the old list
    with the record at its tail, live, with the old deadline when the
    [EXPIRE] fails and a new one when it gets through. *)
Lemma push_cases user_id data w :
  let key := push_key repr user_id in
  let w' := snd (push json_dumps repr user_id data w) in
  db w' = db w \/
  exists dl,
    db w' = <[key := {| value := RList (queue w key ++ [json_dumps data]);
                        deadline := dl |}]> (db w) /\
    live (clock w) {| value := RList (queue w key ++ [json_dumps data]);
                      deadline := dl |} = true.
Proof.
  cbv zeta. unfold queue, push, redis_rpush, redis_expire, redis_call, logging, bind.
  destruct (lookup_live (db w) (clock w) (push_key repr user_id))
    as [[[s|l] dl]|] eqn:Hlive;
    [ | apply lookup_live_Some in Hlive as [_ Hlive] | ].
  all: repeat first
    [ progress (cbn [db clock outages calls log fst snd] in * )
    | rewrite lookup_live_insert in *
    | case_match; simplify_eq ];
    try (left; reflexivity).
  all: try match goal with
         | H : (0 <? 24 * 60 * 60)%Z = false |- _ => discriminate H
         end.
  all: right; rewrite ?insert_insert_eq; eexists; split; [reflexivity|];
       first [apply live_fresh | assumption | reflexivity].
Qed.

(** A push writes under its own key only. *)
Lemma push_frame user_id data w key :
  key <> push_key repr user_id ->
  db (snd (push json_dumps repr user_id data w)) !! key = db w !! key.
Proof.
  intros Hne. destruct (push_cases user_id data w) as [-> | (dl & -> & _)];
    [reflexivity|].
  apply lookup_insert_ne. congruence.
Qed.

Lemma push_clock user_id data w :
  clock (snd (push json_dumps repr user_id data w)) = clock w.
Proof.
  unfold push, redis_rpush, redis_expire, redis_call, logging, bind.
  repeat case_match; simplify_eq; reflexivity.
Qed.

(** Under its own key a push leaves the list as it is or puts the record at
    the tail. *)
Lemma push_queue user_id data w :
  let key := push_key repr user_id in
  let w' := snd (push json_dumps repr user_id data w) in
  queue w' key = queue w key \/ queue w' key = queue w key ++ [json_dumps data].
Proof.
  cbv zeta. unfold queue at 1 3. rewrite push_clock.
  destruct (push_cases user_id data w) as [-> | (dl & -> & Hlive)].
  - left. reflexivity.
  - right. rewrite lookup_live_insert, Hlive. reflexivity.
Qed.

Lemma queue_frame a b key :
  db a !! key = db b !! key -> clock a = clock b -> queue a key = queue b key.
Proof. unfold queue, lookup_live. intros -> ->. reflexivity. Qed.

Lemma push_key_not_rules user_id : push_key repr user_id <> lit "listener:keywords".
Proof.
  unfold push_key.
  change (lit "listener:push:messages:")
    with (map N_of_ascii (list_ascii_of_string "listener:") ++
          map N_of_ascii (list_ascii_of_string "push:messages:")).
  change (lit "listener:keywords")
    with (map N_of_ascii (list_ascii_of_string "listener:") ++
          map N_of_ascii (list_ascii_of_string "keywords")).
  rewrite <- app_assoc. intros H. apply app_inv_head in H. discriminate H.
Qed.

(** X1. The handler never writes to the key it reads the rules from: whatever
    the message, the rules and the state of the connection, the entry under
    ["listener:keywords"] is the same before and after, so the rules the
    next message is matched against are those stored by their owner. *)
Theorem handler_leaves_rules_alone message w :
  db (snd (handle_message json_loads json_dumps lower repr message w))
    !! lit "listener:keywords" = db w !! lit "listener:keywords" /\
  stored_rules (snd (handle_message json_loads json_dumps lower repr message w)) =
    stored_rules w.
Proof.
  destruct (handle_message_db message w)
    as [Hclock [Hdb | (user_id & data & w1 & Hdb1 & Hclock1 & Hdb)]].
  - unfold stored_rules. rewrite Hclock, Hdb. auto.
  - assert (Hkey : db (snd (handle_message json_loads json_dumps lower repr message w))
                     !! lit "listener:keywords" = db w !! lit "listener:keywords").
    { rewrite Hdb, <- Hdb1. apply push_frame.
      intros H. symmetry in H. exact (push_key_not_rules _ H). }
    split; [exact Hkey|].
    unfold stored_rules, lookup_live. rewrite Hkey, Hclock. reflexivity.
Qed.

(** X2. One message adds at most one record to the store, at the tail of one
    list: every list is afterwards what it was before, except possibly one,
    which has one more record at its end.  Nothing queued is removed or
    reordered by the handler. *)
Theorem handler_appends_at_most_one_record message w :
  exists change : option (pystr * pystr),
    forall key,
      queue (snd (handle_message json_loads json_dumps lower repr message w)) key =
      queue w key ++
      match change with
      | Some (changed, item) => if bool_decide (key = changed) then [item] else []
      | None => []
      end.
Proof.
  destruct (handle_message_db message w)
    as [Hclock [Hdb | (user_id & data & w1 & Hdb1 & Hclock1 & Hdb)]].
  - exists None. intros key. rewrite app_nil_r.
    apply queue_frame; [rewrite Hdb; reflexivity | exact Hclock].
  - assert (Hother : forall key, key <> push_key repr user_id ->
              queue (snd (handle_message json_loads json_dumps lower repr message w)) key =
              queue w key).
    { intros key Hne. apply queue_frame; [|exact Hclock].
      rewrite Hdb, <- Hdb1. apply push_frame. exact Hne. }
    assert (Hpushed :
              queue (snd (handle_message json_loads json_dumps lower repr message w))
                (push_key repr user_id) =
              queue (snd (push json_dumps repr user_id data w1)) (push_key repr user_id)).
    { apply queue_frame; [rewrite Hdb; reflexivity|].
      rewrite Hclock, push_clock, Hclock1. reflexivity. }
    assert (Hbefore : queue w1 (push_key repr user_id) = queue w (push_key repr user_id)).
    { apply queue_frame; [rewrite Hdb1; reflexivity | exact Hclock1]. }
    destruct (push_queue user_id data w1) as [Hq | Hq]; rewrite Hq, Hbefore in Hpushed.
    + exists None. intros key. rewrite app_nil_r.
      destruct (decide (key = push_key repr user_id)) as [-> | Hne]; auto.
    + exists (Some (push_key repr user_id, json_dumps data)). intros key.
      case_bool_decide as Hkey.
      * subst key. exact Hpushed.
      * rewrite app_nil_r. auto.
Qed.

End Keyspace.

(** ** Which rule the loop stops at *)

Section Scan.

Variable json_loads : pystr -> option pyval.
Variable json_dumps : pyval -> pystr.
Variable lower : pystr -> pystr.
Variable repr : pyval -> pystr.

(** From a clear [is_push], a rule whose own test fails leaves it clear. *)
Lemma rule_step_clear text username keyword st :
  own_test lower text keyword = false ->
  rule_step lower text username false keyword = Ok st ->
  st = Continue false.
Proof.
  unfold own_test, field, rule_step, rbind.
  destruct keyword; cbn [get]; try discriminate.
  repeat case_match; intros; simplify_eq; try reflexivity;
    cbn [negb andb] in *; try congruence.
  all: destruct (truthy (from_option _ (PBool false) _)); cbn [negb andb] in *; congruence.
Qed.

Lemma select_clear text username keywords keyword user_id target_keyword :
  forallb (fun k => negb (own_test lower text k)) keywords = true ->
  select lower text username false keywords <> Match keyword user_id target_keyword.
Proof.
  induction keywords as [|k rest IH]; cbn [forallb select]; [discriminate|].
  intros [Hk Hrest]%andb_true_iff. apply negb_true_iff in Hk.
  destruct (rule_step lower text username false k) as [st|e] eqn:Hstep; [|discriminate].
  rewrite (rule_step_clear _ _ _ _ Hk Hstep). auto.
Qed.

(** X3. When no active rule's own keyword passes the test on the text of the
    message, nothing is pushed: the handler sends no [RPUSH], whatever the
    gates of the rules are. *)
Theorem no_rule_matches_no_push message w rules v keywords :
  stored_rules w = Some rules ->
  json_loads rules = Some v ->
  py_iter v = Ok keywords ->
  forallb (fun k => negb (own_test lower (message_text message) k)) keywords = true ->
  forall key item,
    ~ In (RPUSH key item)
         (sent w (snd (handle_message json_loads json_dumps lower repr message w))).
Proof.
  intros Hrules Hv Hks Hnone key item Hin.
  apply handle_message_pushes in Hin
    as (u & c & d & r' & v' & ks' & k & uid & t &
        _ & _ & _ & Hr' & Hv' & Hks' & Hsel & _ & _).
  assert (r' = rules) as -> by congruence.
  assert (v' = v) as -> by congruence.
  assert (ks' = keywords) as -> by congruence.
  exact (select_clear _ _ _ _ _ _ Hnone Hsel).
Qed.

(** A rule without gates, from a clear [is_push]: the loop stops at it when
    its own test holds and goes on with a clear [is_push] when not. *)
Lemma rule_step_gate_free text username keyword :
  gate_free keyword = true ->
  rule_step lower text username false keyword =
  Ok (if own_test lower text keyword
      then Break (field keyword (lit "user_id") PNone) (field keyword (lit "keyword") (PStr []))
      else Continue false).
Proof.
  unfold gate_free. destruct keyword; try discriminate.
  unfold own_test, field, rule_step, rbind, too_short. cbn [get].
  intros [[Hgate Hlimit]%andb_true_iff Hkeyword]%andb_true_iff.
  apply negb_true_iff in Hgate. rewrite Hgate.
  destruct (py_gt_0 _) as [[]|]; try discriminate Hlimit.
  destruct (from_option _ (PStr []) (dict_lookup d (lit "keyword"))) as [| | | |s| |];
    try discriminate Hkeyword.
  destruct (truthy (from_option _ (PBool false) _)); cbn [negb andb]; [|reflexivity].
  unfold match_keyword, py_in, py_lower_in.
  repeat case_match; simplify_eq; reflexivity.
Qed.

(** X4. When no rule of the list has a gate (no [has_username], no positive
    [word_limit]) and every keyword is a string, the loop pushes for the
    first active rule, in the order of the list, whose own keyword passes the
    test, with that rule's user and keyword; and it pushes nothing when there
    is no such rule. *)
Theorem gate_free_rules_first_match message from_user chat keywords w :
  forallb gate_free keywords = true ->
  for_keyword json_dumps lower repr message from_user chat false keywords w =
  match find (own_test lower (message_text message)) keywords with
  | Some keyword =>
      notify json_dumps repr message from_user chat
        (field keyword (lit "user_id") PNone) (field keyword (lit "keyword") (PStr [])) w
  | None => (Ok tt, w)
  end.
Proof.
  intros Hfree. rewrite for_keyword_select.
  induction keywords as [|k rest IH]; cbn [select find forallb] in *; [reflexivity|].
  apply andb_true_iff in Hfree as [Hk Hrest].
  rewrite (rule_step_gate_free _ _ _ Hk).
  destruct (own_test lower (message_text message) k); [reflexivity | auto].
Qed.

(** X5. An element of the rule list that is not an object stops the scan
    with [AttributeError] as soon as the loop reaches it: when no rule before
    it made the loop push, nothing is pushed for this message, whatever the
    rules after it are. *)
Theorem malformed_rule_stops_the_scan message from_user chat is_push before bad after w :
  is_dict bad = false ->
  select lower (message_text message) (User.username from_user) is_push before = NoMatch ->
  for_keyword json_dumps lower repr message from_user chat is_push
    (before ++ bad :: after) w = (Raise AttributeError, w).
Proof.
  intros Hbad Hbefore. rewrite for_keyword_select.
  assert (Hsel : select lower (message_text message) (User.username from_user) is_push
                   (before ++ bad :: after) = Failed AttributeError).
  { revert is_push Hbefore.
    induction before as [|k before IH]; intros is_push; cbn [app select].
    - intros _. unfold rule_step. destruct bad; try discriminate Hbad; reflexivity.
    - destruct (rule_step _ _ _ _ k) as [[b|u t]|e]; [apply IH | discriminate..]. }
  rewrite Hsel. reflexivity.
Qed.

(** X9. A rule without [user_id], or with [null] for it, is pushed under
    the key that ends in [None], the word Python prints for a missing value:
    the records of all such rules land in that one list. *)
Theorem rule_without_user_pushes_to_None text username is_push keywords keyword user_id
    target_keyword :
  select lower text username is_push keywords = Match keyword user_id target_keyword ->
  field keyword (lit "user_id") PNone = PNone ->
  push_key repr user_id = lit "listener:push:messages:None".
Proof.
  intros Hsel Hfield.
  apply select_Match in Hsel as (b & _ & Hstep).
  apply rule_step_Break in Hstep as (_ & _ & Huser).
  unfold field in Hfield. rewrite Huser in Hfield. subst user_id. reflexivity.
Qed.

Lemma for_keyword_with_text message text caption from_user chat is_push keywords w :
  or_str text caption = or_str (Message.text message) (Message.caption message) ->
  for_keyword json_dumps lower repr (with_text message text caption) from_user chat
    is_push keywords w =
  for_keyword json_dumps lower repr message from_user chat is_push keywords w.
Proof.
  intros Htext. rewrite !for_keyword_select.
  assert (Hsame : message_text (with_text message text caption) = message_text message).
  { unfold message_text. cbn [with_text Message.text Message.caption].
    rewrite Htext. reflexivity. }
  rewrite Hsame. destruct (select _ _ _ _ _); try reflexivity.
  unfold notify. rewrite Hsame. reflexivity.
Qed.

Lemma handle_message_body_with_text message text caption w :
  or_str text caption = or_str (Message.text message) (Message.caption message) ->
  handle_message_body json_loads json_dumps lower repr (with_text message text caption) w =
  handle_message_body json_loads json_dumps lower repr message w.
Proof.
  intros Htext. unfold handle_message_body.
  cbn [with_text Message.from_user Message.chat Message.text Message.caption].
  rewrite Htext.
  destruct (Message.from_user message) as [from_user|]; [|reflexivity].
  destruct (User.is_self from_user); [reflexivity|].
  destruct (negb _); [reflexivity|].
  unfold bind. destruct (attr (Message.chat message) w) as [[chat|e] w1]; [|reflexivity].
  destruct (pystr_eqb _ _); [reflexivity|].
  destruct (User.is_bot from_user); [reflexivity|].
  destruct (logging _ w1) as [[[]|e] w2]; [|reflexivity].
  destruct (redis_get _ w2) as [[keywords|e] w3]; [|reflexivity].
  destruct (negb _); [reflexivity|].
  destruct (json_loads _) as [v|]; [|reflexivity].
  unfold ret, lift. destruct (py_iter v) as [ks|e]; [|reflexivity].
  apply for_keyword_with_text. exact Htext.
Qed.

(** X8. The handler reads the text and the caption of a message only
    through [text or caption]: a caption is matched and pushed exactly as the
    same words sent as text would be, and it is looked at only when the text
    is missing or empty. *)
Theorem caption_stands_in_for_text message text caption w :
  or_str text caption = or_str (Message.text message) (Message.caption message) ->
  handle_message json_loads json_dumps lower repr (with_text message text caption) w =
  handle_message json_loads json_dumps lower repr message w.
Proof.
  intros Htext. unfold handle_message.
  rewrite (handle_message_body_with_text _ _ _ _ Htext). reflexivity.
Qed.

End Scan.

(** ** The list of a recipient *)

Lemma lit_inj (a b : string) : lit a = lit b -> a = b.
Proof.
  unfold lit. intros H.
  rewrite <- (string_of_list_ascii_of_string a), <- (string_of_list_ascii_of_string b).
  f_equal. revert H.
  generalize (list_ascii_of_string a) (list_ascii_of_string b).
  induction l as [|x l IH]; intros [|y l']; cbn; try discriminate; [reflexivity|].
  intros [= Hxy Hl]. f_equal; [|apply IH; exact Hl].
  rewrite <- (ascii_N_embedding x), <- (ascii_N_embedding y), Hxy. reflexivity.
Qed.

(** Different integers print differently. *)
Lemma str_of_Z_inj (z1 z2 : Z) : str_of_Z z1 = str_of_Z z2 -> z1 = z2.
Proof.
  unfold str_of_Z. intros H%lit_inj.
  apply DecimalZ.to_int_inj.
  assert (Hparse : forall z, NilZero.int_of_string (NilZero.string_of_int (Z.to_int z))
                             = Some (Z.to_int z)).
  { intros z. apply NilZero.isi; destruct z; cbn; try discriminate;
      intros [= Hnil]; exact (DecimalPos.Unsigned.to_uint_nonnil _ Hnil). }
  generalize (Hparse z1). rewrite H, Hparse. congruence.
Qed.

Section Recipient.

Variable json_dumps : pyval -> pystr.
Variable repr : pyval -> pystr.

(** X7. Rules of users with different integer ids push to different keys:
    a push for one user leaves the list of every other user as it was. *)
Theorem integer_users_have_separate_lists (z1 z2 : Z) data w :
  z1 <> z2 ->
  push_key repr (PInt z1) <> push_key repr (PInt z2) /\
  queue (snd (push json_dumps repr (PInt z1) data w)) (push_key repr (PInt z2)) =
    queue w (push_key repr (PInt z2)).
Proof.
  intros Hne.
  assert (Hkeys : push_key repr (PInt z1) <> push_key repr (PInt z2)).
  { unfold push_key. cbn [str]. intros H%app_inv_head. apply Hne, str_of_Z_inj, H. }
  split; [exact Hkeys|].
  apply queue_frame; [|apply push_clock].
  apply push_frame. congruence.
Qed.

(** X6. The two commands of a push are not one step.  When the [RPUSH] gets
    through and the [EXPIRE] after it fails, the push raises, but the record
    is in the list and the key keeps the time to live it had: none at all for
    a list this push created, which then never expires.  The success line is
    not logged. *)
Theorem expire_failure_keeps_record user_id data w e rest :
  outages w = None :: Some e :: rest ->
  holds_string w (push_key repr user_id) = false ->
  fst (push json_dumps repr user_id data w) = Raise (RedisError e) /\
  queue (snd (push json_dumps repr user_id data w)) (push_key repr user_id) =
    queue w (push_key repr user_id) ++ [json_dumps data] /\
  ttl (snd (push json_dumps repr user_id data w)) (push_key repr user_id) =
    ttl w (push_key repr user_id) /\
  log (snd (push json_dumps repr user_id data w)) = log w.
Proof.
  unfold holds_string, queue, ttl. intros Hout Hkey.
  unfold push, redis_rpush, redis_expire, redis_call, logging, bind. rewrite Hout.
  destruct (lookup_live (db w) (clock w) _) as [[[s|l] dl]|] eqn:Hlive;
    [discriminate Hkey | apply lookup_live_Some in Hlive as [_ Hlive] | ];
    cbn [db clock outages calls log tail fst snd];
    rewrite lookup_live_insert;
    unfold live in *; cbn [deadline value] in *; rewrite ?Hlive; auto.
Qed.

(** X10. A list lives 24 hours from its last push.  Once that time has
    passed without a push the records in it are gone: the list reads as empty,
    and the next push starts a new list that holds its record alone. *)
Theorem unread_records_expire user_id a b now w :
  connected 4 w = true ->
  holds_string w (push_key repr user_id) = false ->
  (clock w + 86400 <= now)%Z ->
  queue (tick now (snd (push json_dumps repr user_id a w))) (push_key repr user_id) = [] /\
  ttl (tick now (snd (push json_dumps repr user_id a w))) (push_key repr user_id) = None /\
  queue (snd (push json_dumps repr user_id b
                (tick now (snd (push json_dumps repr user_id a w)))))
        (push_key repr user_id) = [json_dumps b] /\
  ttl (snd (push json_dumps repr user_id b
              (tick now (snd (push json_dumps repr user_id a w)))))
      (push_key repr user_id) = Some 86400%Z.
Proof.
  intros Hup Hkey Hnow.
  assert (Hup2 : connected 2 w = true).
  { revert Hup. unfold connected.
    destruct (outages w) as [|[|] [|[|] ?]]; cbn; auto; discriminate. }
  rewrite (push_connected json_dumps repr user_id a w Hup2 Hkey). cbn [snd].
  set (w1 := tick now _).
  assert (Hgone : lookup_live (db w1) (clock w1) (push_key repr user_id) = None).
  { subst w1. cbn [tick db clock]. rewrite lookup_live_insert. cbn [live deadline].
    destruct (Z.ltb_spec now (clock w + 86400)); [lia | reflexivity]. }
  assert (Hup1 : connected 2 w1 = true).
  { revert Hup. subst w1. unfold connected. cbn [tick outages].
    destruct (outages w) as [|[|] [|[|] [|[|] [|[|] ?]]]]; cbn; auto; discriminate. }
  assert (Hkey1 : holds_string w1 (push_key repr user_id) = false).
  { unfold holds_string. rewrite Hgone. reflexivity. }
  assert (Hq1 : queue w1 (push_key repr user_id) = []).
  { unfold queue. rewrite Hgone. reflexivity. }
  rewrite (push_connected json_dumps repr user_id b w1 Hup1 Hkey1), Hq1. cbn [snd app].
  repeat split.
  - unfold ttl. rewrite Hgone. reflexivity.
  - unfold queue. cbn [db clock]. rewrite lookup_live_insert. cbn [live deadline].
    destruct (Z.ltb_spec (clock w1) (clock w1 + 86400)); [reflexivity | lia].
  - unfold ttl. cbn [db clock]. rewrite lookup_live_insert. cbn [live deadline].
    destruct (Z.ltb_spec (clock w1) (clock w1 + 86400)); [f_equal; lia | lia].
Qed.

End Recipient.

(** * Properties of the endpoints *)

Module ApiProperties.
Import Api.
#[local] Open Scope api_scope.

Lemma async_for_Returns {A B} (body : A -> outcome B) items ending ys :
  async_for body items ending = Returns ys <->
  ending = None /\ Forall2 (fun x y => body x = Returns y) items ys.
Proof.
  revert ys. induction items as [|x rest IH]; intros ys; cbn [async_for].
  - destruct ending; split.
    + discriminate.
    + intros [[=] _].
    + intros [= <-]. split; [reflexivity | constructor].
    + intros [_ H]. inversion H. reflexivity.
  - unfold obind. destruct (body x) as [y|e] eqn:Hx.
    + destruct (async_for body rest ending) as [ys'|e] eqn:Hrest.
      * split.
        -- intros [= <-]. destruct (proj1 (IH ys') eq_refl) as [-> Hall].
           split; [reflexivity | constructor; assumption].
        -- intros [Hend Hall]. inversion Hall as [|? y' ? ys'' Hy Hys]; subst.
           rewrite Hx in Hy. injection Hy as <-.
           assert (Hys' : Returns ys' = Returns ys'') by (apply IH; auto).
           injection Hys' as <-. reflexivity.
      * split; [discriminate|].
        intros [Hend Hall]. inversion Hall as [|? y' ? ys'' Hy Hys]; subst.
        assert (Hys' : Raises e = Returns ys'') by (apply IH; auto). discriminate.
    + split; [discriminate|].
      intros [_ Hall]. inversion Hall; subst. congruence.
Qed.

Section Endpoints.

Variable str : exc -> pystr.
Variable isoformat : datetime.t -> pystr.

(** X11. [get_me] checks the token inside its own [try], and the
    [HTTPException] it raises for a wrong token is an [Exception]: the
    [except] clause catches it and answers with status 400, the 401 surviving
    only as text in the detail.  The client is not asked, and no answer of
    [get_me] has status 401. *)
Theorem get_me_wrong_token_is_400 TOKEN client token :
  bool_decide (Some token = TOKEN) = false ->
  get_me str TOKEN client token =
    Raises (HTTPException 400 (str (HTTPException 401 (lit "Invalid token")))) /\
  forall TOKEN' client' token' e,
    get_me str TOKEN' client' token' = Raises e ->
    exists detail, e = HTTPException 400 detail.
Proof.
  intros Htoken. split.
  - unfold get_me. rewrite Htoken. reflexivity.
  - intros TOKEN' client' token' e. unfold get_me, try_except, obind.
    repeat case_match; intros; simplify_eq; eauto.
Qed.

(** X12. [set_chat_photo] raises its 415 for a file that is not an image,
    and its 400 for a missing file, inside the [try] whose last clause
    catches every [Exception]: both leave the endpoint as status 400.  For a
    file that is not an image the client is not called and the answer is
    400, with the 415 in the detail; and no [HTTPException] of this endpoint
    has another status than 400. *)
Theorem set_chat_photo_never_415 client chat_id file content_type :
  UploadFile.file file = Some tt ->
  UploadFile.content_type file = Some content_type ->
  startswith content_type (lit "image") = false ->
  set_chat_photo str client chat_id file =
    Raises (HTTPException 400
              (str (HTTPException 415
                      (lit "Unsupported Media Type. Please upload an image or video file.")))) /\
  forall client' chat_id' file' status_code detail,
    set_chat_photo str client' chat_id' file' = Raises (HTTPException status_code detail) ->
    status_code = 400%Z.
Proof.
  intros Hfile Htype Himage. split.
  - unfold set_chat_photo. rewrite Hfile, Htype. cbn [attr obind]. rewrite Himage.
    reflexivity.
  - intros client' chat_id' file' status_code detail.
    unfold set_chat_photo, try_except, obind, attr.
    repeat case_match; intros; simplify_eq; reflexivity.
Qed.

(** X13. For [join_chat] a pending invite request is not a failure: when
    the client raises [InviteRequestSent] the endpoint returns normally, with
    status ["verify"].  What it raises is an [HTTPException] with status 404
    (the chat is not known) or 400. *)
Theorem join_chat_invite_request_is_not_an_error client request :
  client (JoinChatRequest.chat_id request) = Raises InviteRequestSent ->
  join_chat str client request =
    Returns (VDict [(lit "status", VStr (lit "verify"));
                    (lit "message", VStr (lit "Invite request sent"))]) /\
  forall client' request' e,
    join_chat str client' request' = Raises e ->
    exists detail, e = HTTPException 404 detail \/ e = HTTPException 400 detail.
Proof.
  intros Hclient. split.
  - unfold join_chat. rewrite Hclient. reflexivity.
  - intros client' request' e. unfold join_chat, try_except, obind.
    repeat case_match; intros; simplify_eq; eauto.
Qed.

Lemma chat_filter_unknown filter :
  known_filter filter = false -> chat_filter filter = ChatMembersFilter.SEARCH.
Proof.
  unfold known_filter, chat_filter. destruct filter as [name|]; [|reflexivity].
  cbn [existsb List.find filter_mapping fst snd].
  repeat destruct (pystr_eqb _ name); cbn; try discriminate; reflexivity.
Qed.

(** X14. [get_chat_members] never asks the client for zero members and
    never fails on the name of a filter.  A filter that is missing or is not
    one of the six names (a misspelt one included) is answered as ["search"]
    is, and a limit that is missing or zero as 1000 is. *)
Theorem get_chat_members_defaults client request :
  known_filter (GetChatMembersRequest.filter request) = false ->
  get_chat_members str isoformat client request =
  get_chat_members str isoformat client
    {| GetChatMembersRequest.chat_id := GetChatMembersRequest.chat_id request;
       GetChatMembersRequest.limit :=
         Some (limit_or_1000 (GetChatMembersRequest.limit request));
       GetChatMembersRequest.filter := Some (lit "search") |} /\
  limit_or_1000 None = 1000%Z /\ limit_or_1000 (Some 0%Z) = 1000%Z /\
  forall limit, limit_or_1000 limit <> 0%Z.
Proof.
  intros Hfilter. split; [|split; [reflexivity | split; [reflexivity|]]].
  - unfold get_chat_members. cbn [GetChatMembersRequest.chat_id
      GetChatMembersRequest.limit GetChatMembersRequest.filter].
    rewrite (chat_filter_unknown _ Hfilter).
    change (chat_filter (Some (lit "search"))) with ChatMembersFilter.SEARCH.
    assert (Hlimit : limit_or_1000 (Some (limit_or_1000 (GetChatMembersRequest.limit request)))
                     = limit_or_1000 (GetChatMembersRequest.limit request)).
    { unfold limit_or_1000. destruct (GetChatMembersRequest.limit request) as [z|];
        [destruct (Z.eqb_spec z 0) as [->|Hz]; [reflexivity|] | reflexivity].
      destruct (Z.eqb_spec z 0); [contradiction | reflexivity]. }
    rewrite Hlimit. reflexivity.
  - intros [z|]; unfold limit_or_1000; [|discriminate].
    destruct (Z.eqb_spec z 0); [discriminate | assumption].
Qed.

Lemma member_loop_Raises members ending e :
  async_for (member_dict isoformat) members ending = Raises e ->
  ending <> None \/
  exists member, In member members /\ ChatMember.user member = None.
Proof.
  intros Hloop. destruct ending as [e'|]; [left; discriminate|]. right. revert Hloop.
  induction members as [|member rest IH]; cbn [async_for]; [discriminate|].
  unfold obind, member_dict at 1, attr.
  destruct (ChatMember.user member) as [user|] eqn:Huser.
  - cbn [obind]. destruct (async_for _ rest None) as [ys|e'']; [discriminate|].
    intros [= <-]. destruct (IH eq_refl) as (m & Hin & Hm).
    exists m. split; [right; exact Hin | exact Hm].
  - intros _. exists member. split; [left; reflexivity | exact Huser].
Qed.

(** X15. [get_chat_members] answers with one dict per member the client
    yields, in the client's order, or not at all: a member without a user, or
    a failure of the client at any point of the listing, discards what was
    collected.  A missing admin right answers 403, a user who is not in the
    chat 404, anything else 400. *)
Theorem get_chat_members_all_or_nothing client request :
  let members :=
    client (GetChatMembersRequest.chat_id request)
      (limit_or_1000 (GetChatMembersRequest.limit request))
      (chat_filter (GetChatMembersRequest.filter request)) in
  match get_chat_members str isoformat client request with
  | Returns v =>
      exists dicts,
        v = VDict [(lit "members", VList dicts)] /\
        ending members = None /\
        Forall2 (fun member dict => member_dict isoformat member = Returns dict)
          (items members) dicts /\
        length dicts = length (items members)
  | Raises e =>
      (ending members <> None \/
       exists member, In member (items members) /\ ChatMember.user member = None) /\
      exists status_code detail,
        e = HTTPException status_code detail /\
        (status_code = 400 \/ status_code = 403 \/ status_code = 404)%Z
  end.
Proof.
  cbv zeta. unfold get_chat_members, try_except, obind.
  destruct (async_for _ _ _) as [dicts|e] eqn:Hloop.
  - apply async_for_Returns in Hloop as [Hend Hall].
    exists dicts. repeat split; try assumption.
    symmetry. eapply Forall2_length, Hall.
  - apply member_loop_Raises in Hloop.
    destruct e; (split; [exact Hloop | eauto 6]).
Qed.

(** X16. Whatever the client does, no exception of the client leaves an
    endpoint as it is: each of the twelve endpoints returns or raises one of
    its own exceptions, an [HTTPException], or for the four that tell them
    apart a [PermissionError], [UserNotFoundError] or [GroupNotFoundError];
    eight of them raise nothing but [HTTPException]. *)
Theorem endpoints_raise_their_own_exceptions e :
  (forall client request,
     create_supergroup str client request = Raises e -> status_of e = Some 400%Z) /\
  (forall client request,
     add_chat_members str client request = Raises e -> status_of e = Some 400%Z) /\
  (forall client request,
     add_contact str client request = Raises e -> status_of e = Some 400%Z) /\
  (forall client request,
     get_chat_members str isoformat client request = Raises e -> status_of e <> None) /\
  (forall client limit,
     get_dialogs str client limit = Raises e -> status_of e = Some 400%Z) /\
  (forall TOKEN client token,
     get_me str TOKEN client token = Raises e -> status_of e = Some 400%Z) /\
  (forall client request, join_chat str client request = Raises e -> status_of e <> None) /\
  (forall client request, leave_chat str client request = Raises e -> status_of e <> None) /\
  (forall client request, ban_chat_member str client request = Raises e ->
     own_exception e = true) /\
  (forall client request, send_message str client request = Raises e ->
     own_exception e = true) /\
  (forall client request, promote_chat_member str client request = Raises e ->
     own_exception e = true) /\
  (forall client chat_id file, set_chat_photo str client chat_id file = Raises e ->
     own_exception e = true).
Proof.
  repeat split; intros *;
    unfold create_supergroup, add_chat_members, add_contact, get_chat_members,
      get_dialogs, get_me, join_chat, leave_chat, ban_chat_member, send_message,
      promote_chat_member, set_chat_photo, try_except, obind, attr;
    repeat case_match; intros; simplify_eq; cbn; congruence.
Qed.

(** The dict of a dialog: the title is the first name when the chat has no
    title, and the username is a non-empty string or [None]. *)
Lemma dialog_dict_fields dialog chat :
  Dialog.chat dialog = Some chat ->
  exists d,
    dialog_dict dialog = Returns (VDict d) /\
    lookup d (lit "username") <> Some (VStr []) /\
    (truthy_str (DialogChat.title chat) = false ->
     lookup d (lit "title") = Some (of_str (DialogChat.first_name chat))) /\
    (truthy_str (DialogChat.title chat) = true ->
     lookup d (lit "title") = Some (of_str (DialogChat.title chat))).
Proof.
  intros Hchat. unfold dialog_dict. rewrite Hchat. cbn [attr obind].
  eexists. split; [reflexivity|]. repeat split.
  - change (lookup _ (lit "username"))
      with (Some (if truthy_str (DialogChat.username chat)
                  then of_str (DialogChat.username chat) else VNone)).
    destruct (DialogChat.username chat) as [[|c s]|]; cbn; discriminate.
  - intros ->. reflexivity.
  - intros ->. reflexivity.
Qed.

(** X17. [get_dialogs] answers with one dict per dialog of the client, in
    the client's order.  In each of them the title is the first name of the
    chat when the chat has no title, and the username is never the empty
    string: an empty username is reported as [None]. *)
Theorem get_dialogs_entries client limit v :
  get_dialogs str client limit = Returns v ->
  exists dicts,
    v = VDict [(lit "dialogs", VList dicts)] /\
    length dicts = length (items (client limit)) /\
    Forall2
      (fun dialog dict =>
         exists chat d,
           Dialog.chat dialog = Some chat /\ dict = VDict d /\
           lookup d (lit "username") <> Some (VStr []) /\
           (truthy_str (DialogChat.title chat) = false ->
            lookup d (lit "title") = Some (of_str (DialogChat.first_name chat))))
      (items (client limit)) dicts.
Proof.
  unfold get_dialogs, try_except, obind.
  destruct (async_for _ _ _) as [dicts|e] eqn:Hloop; [|discriminate].
  intros [= <-]. apply async_for_Returns in Hloop as [_ Hall].
  exists dicts. split; [reflexivity|]. split; [symmetry; eapply Forall2_length, Hall|].
  eapply Forall2_impl; [exact Hall|].
  intros dialog dict Hdict. cbn beta in Hdict.
  destruct (Dialog.chat dialog) as [chat|] eqn:Hchat.
  - destruct (dialog_dict_fields dialog chat Hchat) as (d & Hd & Huser & Htitle & _).
    exists chat, d. rewrite Hd in Hdict. injection Hdict as <-. auto.
  - unfold dialog_dict in Hdict. rewrite Hchat in Hdict. discriminate.
Qed.

End Endpoints.

End ApiProperties.

(** * The further theorems at concrete inputs *)

Lemma no_rule_matches_no_push_witness :
  stored_rules (Sample.world_with Sample.rules_foo_bar) = Some Sample.rules_foo_bar /\
  Fragment.json_loads Sample.rules_foo_bar = Some (PList (Cases.rules_of Sample.rules_foo_bar)) /\
  py_iter (PList (Cases.rules_of Sample.rules_foo_bar)) =
    Ok (Cases.rules_of Sample.rules_foo_bar) /\
  forallb
    (fun k => negb (own_test Fragment.lower
                      (message_text (Sample.message_from Sample.alice "nothing here")) k))
    (Cases.rules_of Sample.rules_foo_bar) = true /\
  forall key item,
    ~ In (RPUSH key item)
         (sent (Sample.world_with Sample.rules_foo_bar)
            (snd (Sample.run (Sample.message_from Sample.alice "nothing here")
                    (Sample.world_with Sample.rules_foo_bar)))).
Proof.
  split; [vm_compute; reflexivity|]. split; [vm_compute; reflexivity|].
  split; [reflexivity|]. split; [vm_compute; reflexivity|].
  apply (no_rule_matches_no_push Fragment.json_loads Fragment.json_dumps Fragment.lower
           Fragment.repr (Sample.message_from Sample.alice "nothing here")
           (Sample.world_with Sample.rules_foo_bar) Sample.rules_foo_bar
           (PList (Cases.rules_of Sample.rules_foo_bar))
           (Cases.rules_of Sample.rules_foo_bar));
    vm_compute; reflexivity.
Defined.

Lemma gate_free_rules_first_match_witness :
  forallb gate_free (Cases.rules_of Sample.rules_foo_bar) = true /\
  for_keyword Fragment.json_dumps Fragment.lower Fragment.repr
    (Sample.message_from Sample.alice "a BAR appears") Sample.alice Sample.group false
    (Cases.rules_of Sample.rules_foo_bar) Sample.empty_world =
  match find (own_test Fragment.lower
                (message_text (Sample.message_from Sample.alice "a BAR appears")))
          (Cases.rules_of Sample.rules_foo_bar) with
  | Some keyword =>
      notify Fragment.json_dumps Fragment.repr
        (Sample.message_from Sample.alice "a BAR appears") Sample.alice Sample.group
        (field keyword (lit "user_id") PNone) (field keyword (lit "keyword") (PStr []))
        Sample.empty_world
  | None => (Ok tt, Sample.empty_world)
  end.
Proof.
  split; [vm_compute; reflexivity|].
  apply (gate_free_rules_first_match Fragment.json_dumps Fragment.lower Fragment.repr
           (Sample.message_from Sample.alice "a BAR appears") Sample.alice Sample.group
           (Cases.rules_of Sample.rules_foo_bar) Sample.empty_world).
  vm_compute; reflexivity.
Defined.

Lemma malformed_rule_stops_the_scan_witness :
  is_dict (PStr (lit "foo")) = false /\
  select Fragment.lower (message_text (Sample.message_from Sample.alice "a BAR appears"))
    (User.username Sample.alice) false [] = NoMatch /\
  for_keyword Fragment.json_dumps Fragment.lower Fragment.repr
    (Sample.message_from Sample.alice "a BAR appears") Sample.alice Sample.group false
    ([] ++ PStr (lit "foo") :: Cases.rules_of Sample.rules_foo_bar) Sample.empty_world =
  (Raise AttributeError, Sample.empty_world).
Proof.
  split; [reflexivity|]. split; [reflexivity|].
  apply (malformed_rule_stops_the_scan Fragment.json_dumps Fragment.lower Fragment.repr
           (Sample.message_from Sample.alice "a BAR appears") Sample.alice Sample.group
           false [] (PStr (lit "foo")) (Cases.rules_of Sample.rules_foo_bar)
           Sample.empty_world); reflexivity.
Defined.

Lemma rule_without_user_pushes_to_None_witness :
  select Fragment.lower (lit "anything") None false [Cases.ownerless_rule] =
    Match Cases.ownerless_rule PNone (PStr []) /\
  field Cases.ownerless_rule (lit "user_id") PNone = PNone /\
  push_key Fragment.repr PNone = lit "listener:push:messages:None".
Proof.
  split; [vm_compute; reflexivity|]. split; [reflexivity|].
  apply (rule_without_user_pushes_to_None Fragment.lower Fragment.repr (lit "anything")
           None false [Cases.ownerless_rule] Cases.ownerless_rule PNone (PStr []));
    vm_compute; reflexivity.
Defined.

Lemma caption_stands_in_for_text_witness :
  or_str None (Some (lit "a BAR appears")) =
    or_str (Message.text (Sample.message_from Sample.alice "a BAR appears"))
           (Message.caption (Sample.message_from Sample.alice "a BAR appears")) /\
  handle_message Fragment.json_loads Fragment.json_dumps Fragment.lower Fragment.repr
    (with_text (Sample.message_from Sample.alice "a BAR appears") None
       (Some (lit "a BAR appears")))
    (Sample.world_with Sample.rules_foo_bar) =
  handle_message Fragment.json_loads Fragment.json_dumps Fragment.lower Fragment.repr
    (Sample.message_from Sample.alice "a BAR appears")
    (Sample.world_with Sample.rules_foo_bar).
Proof.
  split; [reflexivity|].
  apply (caption_stands_in_for_text Fragment.json_loads Fragment.json_dumps Fragment.lower
           Fragment.repr (Sample.message_from Sample.alice "a BAR appears") None
           (Some (lit "a BAR appears")) (Sample.world_with Sample.rules_foo_bar)).
  reflexivity.
Defined.

Lemma integer_users_have_separate_lists_witness :
  (1 <> 2)%Z /\
  push_key Fragment.repr (PInt 1) <> push_key Fragment.repr (PInt 2) /\
  queue (snd (push Fragment.json_dumps Fragment.repr (PInt 1) (PStr (lit "first"))
                Sample.empty_world))
        (push_key Fragment.repr (PInt 2)) =
    queue Sample.empty_world (push_key Fragment.repr (PInt 2)).
Proof.
  split; [lia|].
  apply (integer_users_have_separate_lists Fragment.json_dumps Fragment.repr 1 2
           (PStr (lit "first")) Sample.empty_world). lia.
Defined.

Lemma expire_failure_keeps_record_witness :
  outages Cases.flaky_world = None :: Some TimeoutError :: [] /\
  holds_string Cases.flaky_world (push_key Fragment.repr (PInt 7)) = false /\
  fst (push Fragment.json_dumps Fragment.repr (PInt 7) (PStr (lit "first"))
         Cases.flaky_world) = Raise (RedisError TimeoutError) /\
  queue (snd (push Fragment.json_dumps Fragment.repr (PInt 7) (PStr (lit "first"))
                Cases.flaky_world))
        (push_key Fragment.repr (PInt 7)) =
    queue Cases.flaky_world (push_key Fragment.repr (PInt 7)) ++
    [Fragment.json_dumps (PStr (lit "first"))] /\
  ttl (snd (push Fragment.json_dumps Fragment.repr (PInt 7) (PStr (lit "first"))
              Cases.flaky_world))
      (push_key Fragment.repr (PInt 7)) =
    ttl Cases.flaky_world (push_key Fragment.repr (PInt 7)) /\
  log (snd (push Fragment.json_dumps Fragment.repr (PInt 7) (PStr (lit "first"))
              Cases.flaky_world)) = log Cases.flaky_world.
Proof.
  split; [reflexivity|]. split; [vm_compute; reflexivity|].
  apply (expire_failure_keeps_record Fragment.json_dumps Fragment.repr (PInt 7)
           (PStr (lit "first")) Cases.flaky_world TimeoutError []);
    vm_compute; reflexivity.
Defined.

Lemma unread_records_expire_witness :
  connected 4 Sample.empty_world = true /\
  holds_string Sample.empty_world (push_key Fragment.repr (PInt 7)) = false /\
  (clock Sample.empty_world + 86400 <= 90000)%Z /\
  queue (tick 90000 (snd (push Fragment.json_dumps Fragment.repr (PInt 7)
                            (PStr (lit "first")) Sample.empty_world)))
        (push_key Fragment.repr (PInt 7)) = [] /\
  ttl (tick 90000 (snd (push Fragment.json_dumps Fragment.repr (PInt 7)
                          (PStr (lit "first")) Sample.empty_world)))
      (push_key Fragment.repr (PInt 7)) = None /\
  queue (snd (push Fragment.json_dumps Fragment.repr (PInt 7) (PStr (lit "second"))
                (tick 90000 (snd (push Fragment.json_dumps Fragment.repr (PInt 7)
                                    (PStr (lit "first")) Sample.empty_world)))))
        (push_key Fragment.repr (PInt 7)) = [Fragment.json_dumps (PStr (lit "second"))] /\
  ttl (snd (push Fragment.json_dumps Fragment.repr (PInt 7) (PStr (lit "second"))
              (tick 90000 (snd (push Fragment.json_dumps Fragment.repr (PInt 7)
                                  (PStr (lit "first")) Sample.empty_world)))))
      (push_key Fragment.repr (PInt 7)) = Some 86400%Z.
Proof.
  split; [reflexivity|]. split; [vm_compute; reflexivity|].
  split; [vm_compute; discriminate|].
  apply (unread_records_expire Fragment.json_dumps Fragment.repr (PInt 7)
           (PStr (lit "first")) (PStr (lit "second")) 90000 Sample.empty_world).
  - reflexivity.
  - vm_compute; reflexivity.
  - vm_compute; discriminate.
Defined.

Lemma get_me_wrong_token_is_400_witness :
  bool_decide (Some (lit "guess") = Some (lit "secret")) = false /\
  Api.get_me Api.str_sample (Some (lit "secret"))
    (fun _ => Api.Returns Sample.alice) (lit "guess") =
  Api.Raises (Api.HTTPException 400
                (Api.str_sample (Api.HTTPException 401 (lit "Invalid token")))).
Proof.
  split; [reflexivity|].
  apply (ApiProperties.get_me_wrong_token_is_400 Api.str_sample (Some (lit "secret"))
           (fun _ => Api.Returns Sample.alice) (lit "guess")).
  reflexivity.
Defined.

Lemma set_chat_photo_never_415_witness :
  Api.UploadFile.file (Api.upload_of "text/plain") = Some tt /\
  Api.UploadFile.content_type (Api.upload_of "text/plain") = Some (lit "text/plain") /\
  startswith (lit "text/plain") (lit "image") = false /\
  Api.set_chat_photo Api.str_sample (fun _ _ => Api.Returns tt) 5
    (Api.upload_of "text/plain") =
  Api.Raises
    (Api.HTTPException 400
       (Api.str_sample
          (Api.HTTPException 415
             (lit "Unsupported Media Type. Please upload an image or video file.")))).
Proof.
  split; [reflexivity|]. split; [reflexivity|]. split; [reflexivity|].
  apply (ApiProperties.set_chat_photo_never_415 Api.str_sample (fun _ _ => Api.Returns tt)
           5 (Api.upload_of "text/plain") (lit "text/plain")); reflexivity.
Defined.

Lemma join_chat_invite_request_is_not_an_error_witness :
  (fun _ : Api.value => @Api.Raises Chat.t Api.InviteRequestSent)
    (Api.JoinChatRequest.chat_id {| Api.JoinChatRequest.chat_id := Api.VStr (lit "rocq") |}) =
    Api.Raises Api.InviteRequestSent /\
  Api.join_chat Api.str_sample (fun _ => Api.Raises Api.InviteRequestSent)
    {| Api.JoinChatRequest.chat_id := Api.VStr (lit "rocq") |} =
  Api.Returns (Api.VDict [(lit "status", Api.VStr (lit "verify"));
                          (lit "message", Api.VStr (lit "Invite request sent"))]).
Proof.
  split; [reflexivity|].
  apply (ApiProperties.join_chat_invite_request_is_not_an_error Api.str_sample
           (fun _ => Api.Raises Api.InviteRequestSent)
           {| Api.JoinChatRequest.chat_id := Api.VStr (lit "rocq") |}).
  reflexivity.
Defined.

Lemma get_chat_members_defaults_witness :
  Api.known_filter (Some (lit "admins")) = false /\
  Api.get_chat_members Api.str_sample Api.isoformat_sample
    (fun _ limit _ =>
       {| Api.items := repeat (Api.member_of (Some Sample.alice)) (Z.to_nat limit - 999);
          Api.ending := None |})
    {| Api.GetChatMembersRequest.chat_id := Api.VInt 5;
       Api.GetChatMembersRequest.limit := Some 0%Z;
       Api.GetChatMembersRequest.filter := Some (lit "admins") |} =
  Api.get_chat_members Api.str_sample Api.isoformat_sample
    (fun _ limit _ =>
       {| Api.items := repeat (Api.member_of (Some Sample.alice)) (Z.to_nat limit - 999);
          Api.ending := None |})
    {| Api.GetChatMembersRequest.chat_id := Api.VInt 5;
       Api.GetChatMembersRequest.limit := Some 1000%Z;
       Api.GetChatMembersRequest.filter := Some (lit "search") |}.
Proof.
  split; [reflexivity|].
  apply (ApiProperties.get_chat_members_defaults Api.str_sample Api.isoformat_sample
           (fun _ limit _ =>
              {| Api.items := repeat (Api.member_of (Some Sample.alice)) (Z.to_nat limit - 999);
                 Api.ending := None |})
           {| Api.GetChatMembersRequest.chat_id := Api.VInt 5;
              Api.GetChatMembersRequest.limit := Some 0%Z;
              Api.GetChatMembersRequest.filter := Some (lit "admins") |}).
  reflexivity.
Defined.

Lemma get_dialogs_entries_witness :
  Api.get_dialogs Api.str_sample Cases.two_dialogs None =
    Api.Returns
      (Api.VDict
         [(lit "dialogs",
           Api.VList
             [Api.VDict [(lit "id", Api.VInt 77); (lit "title", Api.VStr (lit "Ann"));
                         (lit "type", Api.VStr (lit "private"));
                         (lit "username", Api.VStr (lit "ann"));
                         (lit "creator", Api.VNone)];
              Api.VDict [(lit "id", Api.VInt 77); (lit "title", Api.VStr (lit "Ben"));
                         (lit "type", Api.VStr (lit "private"));
                         (lit "username", Api.VNone);
                         (lit "creator", Api.VNone)]])]) /\
  exists dicts : list Api.value,
    length dicts = length (Api.items (Cases.two_dialogs None)).
Proof.
  assert (H : Api.get_dialogs Api.str_sample Cases.two_dialogs None =
    Api.Returns
      (Api.VDict
         [(lit "dialogs",
           Api.VList
             [Api.VDict [(lit "id", Api.VInt 77); (lit "title", Api.VStr (lit "Ann"));
                         (lit "type", Api.VStr (lit "private"));
                         (lit "username", Api.VStr (lit "ann"));
                         (lit "creator", Api.VNone)];
              Api.VDict [(lit "id", Api.VInt 77); (lit "title", Api.VStr (lit "Ben"));
                         (lit "type", Api.VStr (lit "private"));
                         (lit "username", Api.VNone);
                         (lit "creator", Api.VNone)]])])) by (vm_compute; reflexivity).
  split; [exact H|].
  destruct (ApiProperties.get_dialogs_entries Api.str_sample Cases.two_dialogs None _ H)
    as (dicts & _ & Hlen & _).
  exists dicts. exact Hlen.
Defined.

Lemma endpoints_raise_their_own_exceptions_witness :
  Api.ban_chat_member Api.str_sample (fun _ _ => Api.Raises Api.ChatAdminRequired)
    {| Api.BanChatMemberRequest.chat_id := Api.VInt 5;
       Api.BanChatMemberRequest.user_id := Api.VInt 6 |} =
    Api.Raises (Api.PermissionError (lit "You need to be an admin to ban users.")) /\
  Api.own_exception (Api.PermissionError (lit "You need to be an admin to ban users.")) = true.
Proof.
  split; [reflexivity|].
  apply (ApiProperties.endpoints_raise_their_own_exceptions Api.str_sample
           Api.isoformat_sample
           (Api.PermissionError (lit "You need to be an admin to ban users.")))
    with (client := fun _ _ => Api.Raises Api.ChatAdminRequired)
         (request := {| Api.BanChatMemberRequest.chat_id := Api.VInt 5;
                        Api.BanChatMemberRequest.user_id := Api.VInt 6 |}).
  reflexivity.
Defined.

(** * Failures and the store *)

Section Failures.

Variable json_loads : pystr -> option pyval.
Variable json_dumps : pyval -> pystr.
Variable lower : pystr -> pystr.
Variable repr : pyval -> pystr.



End Failures.



(** C7, evaluated.  The rules are [foo] (needs a username, for user 1) and
    [zzz] with the pattern ["regex"] (for user 2); the sender has no username
    and writes ["foo bar baz"].  Under ["regex"] the test of the second rule
    is false, as it is under every pattern but ["exact"] and ["fuzzy"], and
    its keyword is not in the text; yet the rule is pushed, to user 2 and
    with [matched_keyword] [zzz], because the first rule left [is_push]
    set. *)
Theorem stale_flag_reaches_unknown_pattern :
  py_eq_str (PStr (lit "regex")) (lit "exact") = false /\
  py_eq_str (PStr (lit "regex")) (lit "fuzzy") = false /\
  contains (lit "foo bar baz") (lit "zzz") = false /\
  match_keyword Fragment.lower false (PStr (lit "regex")) (PStr (lit "zzz"))
    (lit "foo bar baz") = Ok false /\
  fst (Sample.run (Sample.message_from Sample.nameless "foo bar baz")
         (Sample.world_with Cases.rules_unknown_pattern)) = Ok tt /\
  queue (snd (Sample.run (Sample.message_from Sample.nameless "foo bar baz")
                (Sample.world_with Cases.rules_unknown_pattern)))
        (lit "listener:push:messages:1") = [] /\
  queue (snd (Sample.run (Sample.message_from Sample.nameless "foo bar baz")
                (Sample.world_with Cases.rules_unknown_pattern)))
        (lit "listener:push:messages:2") =
    [Sample.record_of_nameless "foo bar baz" "zzz"].
Proof. repeat split; vm_compute; reflexivity. Qed.
